(** * StereoTUM.dataset: the time-synchronised dataset facade

    A shallow embedding of [src/StereoTUM/dataset.py].

    Conventions of the embedding.

    - A time stamp is a finite IEEE double in the program.  The code only
      hashes, compares ([==], [<], [>]) and sorts time stamps, so a stamp is
      represented by an integer through an order embedding of the finite
      doubles (for the decimal stamps of the records: the number of
      microseconds).  NaN cells, which are unordered, are outside of the model.
    - A Python [dict] is an association list in iteration (insertion) order,
      as in Python 3.7 and later.
    - A raised exception is the [Raise] case of [result].
    - Generator objects live in a store and are named by their location, so
      that two generators obtained from two calls can be told apart. *)

From Stdlib Require Import ZArith Ascii String List QArith Qround Lqa.
From stdpp Require Import base gmap sets list strings sorting.

Local Open Scope string_scope.

(** ** Python values used by the module *)

Module py.

(** What an exception of [dataset.py] is about; the source formats these
    into its messages. *)
Inductive reason :=
| MissingFolder (folder : string)
| MissingFile (file : string)
| MissingKey (key file : string)
| UnknownShutter (shutter : string)
| UnknownCamera (cam : string)
| GammaDomain (input : Z)
| NoRollingShutter (path : string)
| SliceStep (start stop step : option Z).

Inductive exn :=
| IOError (why : reason)
| ValueError (why : reason)
| KeyError (key : string)
| IndexError.

Inductive result (A : Type) :=
| Ok (a : A)
| Raise (e : exn).
Arguments Ok {A} a.
Arguments Raise {A} e.

#[global] Instance result_ret : MRet result := fun A a => Ok a.
#[global] Instance result_bind : MBind result := fun A B f m =>
  match m with
  | Ok a => f a
  | Raise e => Raise e
  end.

(** [dict]: keys are strings throughout the module. *)
Abbreviation dict V := (list (string * V)) (only parsing).

Fixpoint dict_lookup {V} (key : string) (d : dict V) : option V :=
  match d with
  | [] => None
  | (k, v) :: d' => if String.eqb k key then Some v else dict_lookup key d'
  end.

(** [key in d] *)
Definition dict_contains {V} (key : string) (d : dict V) : bool :=
  match dict_lookup key d with Some _ => true | None => false end.

(** [d[key]] *)
Definition dict_get {V} (key : string) (d : dict V) : result V :=
  match dict_lookup key d with
  | Some v => Ok v
  | None => Raise (KeyError key)
  end.

(** [d[key] = v]: a present key keeps its place, a new one goes last. *)
Fixpoint dict_set {V} (key : string) (v : V) (d : dict V) : dict V :=
  match d with
  | [] => [(key, v)]
  | (k, w) :: d' =>
      if String.eqb k key then (k, v) :: d' else (k, w) :: dict_set key v d'
  end.

(** [for key in d] *)
Definition dict_keys {V} (d : dict V) : list string := map fst d.

End py.
Export py.

(** ** [os.path] *)

Module p.

Definition ends_with_sep (a : string) : bool :=
  match String.get (String.length a - 1) a with
  | Some c => Ascii.eqb c "/"%char
  | None => false
  end.

Definition join (a b : string) : string :=
  if String.prefix "/" b then b
  else if String.eqb a "" || ends_with_sep a then a ++ b
  else a ++ "/" ++ b.

Definition join3 (a b c : string) : string := join (join a b) c.

End p.

(** ** [numpy] arrays of the record files *)

Module np.

(** One line of a record file: column 0 is the time stamp. *)
Record Row := { row_stamp : Z; row_rest : list Z }.

(** [genfromtxt] gives a two-dimensional array for a file of two data lines
    or more, and a one-dimensional one for a file of one line.  The type is
    wider than what [genfromtxt] returns: an [Arr2] of fewer than two rows
    never comes from a file, and the zero-dimensional array of a file of one
    number is not modelled. *)
Inductive ndarray :=
| Arr1 (cells : list Z)
| Arr2 (rows : list Row).

(** [a[:,0]] *)
Definition col0 (a : ndarray) : result (list Z) :=
  match a with
  | Arr1 _ => Raise IndexError
  | Arr2 rows => Ok (map row_stamp rows)
  end.

Definition rows_of (a : ndarray) : list Row :=
  match a with
  | Arr1 _ => []
  | Arr2 rows => rows
  end.

(** Where the index [i] points in an axis of length [n]: a negative index
    counts from the end. *)
Definition position (n : nat) (i : Z) : option nat :=
  if (0 <=? i)%Z then
    if (i <? Z.of_nat n)%Z then Some (Z.to_nat i) else None
  else
    if (- Z.of_nat n <=? i)%Z then Some (Z.to_nat (Z.of_nat n + i)) else None.

(** What [a[i]] is: a number of a one-dimensional array, a line of a
    two-dimensional one. *)
Inductive element :=
| Number (z : Z)
| Line (cells : list Z).

(** [a[i]] *)
Definition getitem (a : ndarray) (i : Z) : result element :=
  match a with
  | Arr1 cells =>
      match position (length cells) i with
      | Some k =>
          match cells !! k with
          | Some z => Ok (Number z)
          | None => Raise IndexError
          end
      | None => Raise IndexError
      end
  | Arr2 rows =>
      match position (length rows) i with
      | Some k =>
          match rows !! k with
          | Some r => Ok (Line (row_stamp r :: row_rest r))
          | None => Raise IndexError
          end
      | None => Raise IndexError
      end
  end.

End np.
Export np.

(** ** What the loader reads *)

(** The [shutter] entry of a camera in [params.yaml]. *)
Record ShutterParams := { sh_type : option string; sh_speed : option Z }.

(** The [exposure] entry of a camera in [params.yaml]. *)
Record ExposureParams := { exp_min : option Z; exp_max : option Z }.

(** One reference of [params.yaml]; an absent key is [None]. *)
Record RefParams := {
  ref_transform : option (list (list Z));
  ref_shutter : option ShutterParams;
  ref_exposure : option ExposureParams
}.

(** [key in ref] for the two keys the loader asks for. *)
Definition ref_contains (key : string) (r : RefParams) : bool :=
  if String.eqb key "transform" then bool_decide (is_Some (ref_transform r))
  else if String.eqb key "shutter" then bool_decide (is_Some (ref_shutter r))
  else if String.eqb key "exposure" then bool_decide (is_Some (ref_exposure r))
  else false.

(** The environment of [Dataset.__init__]: the file system and its parsers. *)
Record Disk := {
  expand : string -> string;              (* p.expandvars (p.expanduser path) *)
  exists_ : string -> bool;               (* p.exists *)
  genfromtxt : string -> ndarray;         (* np.genfromtxt *)
  yaml_time : string -> dict (dict Z);    (* yaml.load of params/time.yaml *)
  yaml_params : string -> dict RefParams  (* yaml.load of params/params.yaml *)
}.

(** [namedtuple('Raw', ['frames', 'imu', 'groundtruth'])] *)
Module Raw.
Record t := { frames : ndarray; imu : ndarray; groundtruth : ndarray }.
End Raw.

(** ** [StereoTUM.values], as far as [dataset.py] calls it *)

Module values.

(** Modelled from the spec: [StereoTUM/values.py] is not among the sources,
    and the design document has no [Value]: what its point lookup hands to
    the lookups of its section 4.2 is the time stamp.  A [Value] is taken
    here as the two arguments [_find_data_for] builds it from, the stamp and
    the reference name; what its constructor checks, if anything, is not
    known. *)
Record Value := { v_stamp : Z; v_reference : string }.

(** Modelled from the spec: the Sensor Sample of a camera pair, a line of
    [data/frames.csv] read for one shutter type ([values.py] is absent). *)
Record StereoImage := { si_shutter : string; si_row : Row }.

(** Modelled from the spec: the Sensor Sample of the IMU, a line of
    [data/imu.csv] ([values.py] is absent). *)
Record ImuValue := { iv_row : Row }.

(** Modelled from the spec: the Sensor Sample of the motion capture, a line
    of [data/ground_truth.csv] ([values.py] is absent). *)
Record GroundTruth := { gt_row : Row }.

(** Modelled from the spec: the matching policy [exact] of [extrapolate],
    absent with [values.py]: "the Sensor Sample whose Timestamp equals stamp
    exactly; if no sample shares that exact timestamp, the field is absent".
    The other policies are never requested by [dataset.py]. *)
Definition exact (stream : list Row) (stamp : Z) : option Row :=
  List.find (fun r => Z.eqb (row_stamp r) stamp) stream.

(** Modelled from the spec: [StereoImage.extrapolate(value, shutter,
    method='exact')] of the absent [values.py]; both camera pairs are
    recorded in [data/frames.csv]. *)
Definition StereoImage_extrapolate
    (raw : Raw.t) (value : Value) (shutter : string) : option StereoImage :=
  match exact (rows_of (Raw.frames raw)) (v_stamp value) with
  | Some r => Some {| si_shutter := shutter; si_row := r |}
  | None => None
  end.

(** Modelled from the spec: [ImuValue.extrapolate(value, method='exact')] of
    the absent [values.py]. *)
Definition ImuValue_extrapolate (raw : Raw.t) (value : Value) : option ImuValue :=
  match exact (rows_of (Raw.imu raw)) (v_stamp value) with
  | Some r => Some {| iv_row := r |}
  | None => None
  end.

(** Modelled from the spec: [GroundTruth.extrapolate(value, method='exact')]
    of the absent [values.py]. *)
Definition GroundTruth_extrapolate
    (raw : Raw.t) (value : Value) : option GroundTruth :=
  match exact (rows_of (Raw.groundtruth raw)) (v_stamp value) with
  | Some r => Some {| gt_row := r |}
  | None => None
  end.

End values.

(** ** [class Dataset] *)

(** [namedtuple('Data', 'global_ rolling imu groundtruth stamp')] *)
Module _Data.
Record t := {
  global_ : option values.StereoImage;
  rolling : option values.StereoImage;
  imu : option values.ImuValue;
  groundtruth : option values.GroundTruth;
  stamp : Z
}.
End _Data.

(** [namedtuple('Limits', ['min', 'max'])] *)
Module Limits.
Record t := { min : Z; max : Z }.
End Limits.

(** [namedtuple('Resolution', 'width height')] *)
Module Resolution.
Record t := { width : Z; height : Z }.
End Resolution.

Module Dataset.

(** The attributes [__init__] sets.  [_cameras], [_imu] and [_mocap] hold
    device objects of [StereoTUM.devices], a module that is not among the
    sources: handles to iterate one stream, which refer back to the dataset.
    The arrays stay reachable through [_raw]. *)
Record t := {
  _path : string;
  _raw : Raw.t;
  _times : list Z;
  _time : dict Z;
  _refs : dict RefParams;
  _cams : dict RefParams;
  _gammas : dict ndarray
}.

Definition _check_folder_exists (fs : Disk) (folder : string) : result unit :=
  if negb (exists_ fs folder) then Raise (IOError (MissingFolder folder))
  else Ok tt.

Definition _check_file_exists (fs : Disk) (file : string) : result unit :=
  if negb (exists_ fs file) then Raise (IOError (MissingFile file))
  else Ok tt.

(** The dictionary is passed by its membership test [key in dictionary]. *)
Definition _check_contains_key
    (file : string) (contains : string -> bool) (key : string) : result unit :=
  if negb (contains key) then Raise (ValueError (MissingKey key file))
  else Ok tt.

(** [sorted(set(f) | set(i) | set(g))] *)
Definition sorted_union (f i g : list Z) : list Z :=
  merge_sort Z.le
    (elements ((list_to_set f : gset Z) ∪ list_to_set i ∪ list_to_set g)).

(** The loop [for ref in self._refs] of [__init__], on the references still
    to visit, with [_cams] and [_gammas] as built so far. *)
Fixpoint load_refs (fs : Disk) (path paramfile : string) (refs : dict RefParams)
    (todo : list string) (cams : dict RefParams) (gammas : dict ndarray)
    : result (dict RefParams * dict ndarray) :=
  match todo with
  | [] => Ok (cams, gammas)
  | ref :: todo' =>
      if String.eqb ref "world" then
        load_refs fs path paramfile refs todo' cams gammas
      else
        r ← dict_get ref refs;
        _check_contains_key paramfile (fun k => ref_contains k r) "transform";;
        if negb (ref_contains "shutter" r) then
          load_refs fs path paramfile refs todo' cams gammas
        else
          let cam := ref in
          let cams := dict_set cam r cams in
          let folder := p.join3 path "params" cam in
          let gamma := p.join folder "gamma.txt" in
          let vignette := p.join folder "vignette.png" in
          _check_folder_exists fs folder;;
          _check_file_exists fs gamma;;
          _check_file_exists fs vignette;;
          let gammas := dict_set cam (genfromtxt fs gamma) gammas in
          load_refs fs path paramfile refs todo' cams gammas
  end.

(** [__init__], up to its three last lines, which build the device objects
    of [StereoTUM.devices].  The parsed files are typed: a file that
    [np.genfromtxt] or [yaml.load] refuses, or a YAML document of another
    shape, is outside of the model. *)
Definition __init__ (fs : Disk) (path : string) : result t :=
  let path := expand fs path in
  _check_folder_exists fs (p.join path "data");;
  _check_folder_exists fs (p.join path "frames");;
  _check_folder_exists fs (p.join path "params");;
  let f := p.join3 path "data" "frames.csv" in
  let i := p.join3 path "data" "imu.csv" in
  let g := p.join3 path "data" "ground_truth.csv" in
  _check_file_exists fs f;;
  _check_file_exists fs i;;
  _check_file_exists fs g;;
  let frames := genfromtxt fs f in
  let imu := genfromtxt fs i in
  let ground_truth := genfromtxt fs g in
  tf ← col0 frames;
  ti ← col0 imu;
  tg ← col0 ground_truth;
  let times := sorted_union tf ti tg in
  let raw := {| Raw.frames := frames; Raw.imu := imu;
                Raw.groundtruth := ground_truth |} in
  let timefile := p.join3 path "params" "time.yaml" in
  _check_file_exists fs timefile;;
  time ← dict_get "time" (yaml_time fs timefile);
  _check_contains_key timefile (fun k => dict_contains k time) "start";;
  _check_contains_key timefile (fun k => dict_contains k time) "end";;
  _check_contains_key timefile (fun k => dict_contains k time) "duration";;
  let paramfile := p.join3 path "params" "params.yaml" in
  _check_file_exists fs paramfile;;
  let refs := yaml_params fs paramfile in
  '(cams, gammas) ← load_refs fs path paramfile refs (dict_keys refs) [] [];
  Ok {| _path := path; _raw := raw; _times := times; _time := time;
        _refs := refs; _cams := cams; _gammas := gammas |}.

Definition raw (self : t) : Raw.t := _raw self.

Definition times (self : t) : list Z := _times self.

Definition start (self : t) : result Z := dict_get "start" (_time self).

Definition end_ (self : t) : result Z := dict_get "end" (_time self).

Definition duration (self : t) : result Z := dict_get "duration" (_time self).

Definition resolution (self : t) : Resolution.t :=
  {| Resolution.width := 1280; Resolution.height := 1024 |}.

(** [o[key]] for an entry read from [params.yaml]. *)
Definition item {A} (key : string) (o : option A) : result A :=
  match o with
  | Some a => Ok a
  | None => Raise (KeyError key)
  end.

(** A property that falls off its [for] loop returns [None]. *)
Definition exposure_limits (self : t) : result (option Limits.t) :=
  match dict_keys (_cams self) with
  | [] => Ok None
  | cam :: _ =>
      r ← dict_get cam (_cams self);
      exp ← item "exposure" (ref_exposure r);
      lo ← item "min" (exp_min exp);
      hi ← item "max" (exp_max exp);
      Ok (Some {| Limits.min := lo; Limits.max := hi |})
  end.

(** [round(input)] of Python 3 on a float or an integer, given by its exact
    value: the nearest integer, a tie going to the even one. *)
Definition round (input : Q) : Z :=
  let f := Qfloor input in
  match Qcompare (input - inject_Z f) (1 # 2) with
  | Lt => f
  | Gt => (f + 1)%Z
  | Eq => if Z.even f then f else (f + 1)%Z
  end.

(** [a < b] on numbers *)
Definition less (a b : Q) : bool := negb (Qle_bool b a).

(** What a call of [gamma] comes to.  The [ValueError] of an input out of
    0 .. 255 has the input, a float, in its message. *)
Inductive gamma_outcome :=
| Gamma (r : result element)
| GammaDomainError (input : Q).

Definition gamma (self : t) (cam : string) (input : Q) : gamma_outcome :=
  if negb (dict_contains cam (_cams self)) then
    Gamma (Raise (ValueError (UnknownCamera cam)))
  else if less input 0 || less 255 input then GammaDomainError input
  else
    Gamma (table ← dict_get cam (_gammas self); getitem table (round input)).

(** [cv2.imread(file, cv2.IMREAD_GRAYSCALE)] is passed as [imread]. *)
Definition vignette {Image : Type} (imread : string -> Image)
    (self : t) (cam : string) : result Image :=
  if negb (dict_contains cam (_cams self)) then
    Raise (ValueError (UnknownCamera cam))
  else
    let file := p.join (p.join3 (_path self) "params" cam) "vignette.png" in
    Ok (imread file).

Fixpoint rolling_shutter_speed_loop (self : t) (todo : list string) : result Z :=
  match todo with
  | [] => Raise (ValueError (NoRollingShutter (_path self)))
  | cam :: todo' =>
      r ← dict_get cam (_cams self);
      shutter ← item "shutter" (ref_shutter r);
      ty ← item "type" (sh_type shutter);
      if String.eqb ty "rolling" then item "speed" (sh_speed shutter)
      else rolling_shutter_speed_loop self todo'
  end.

Definition rolling_shutter_speed (self : t) : result Z :=
  rolling_shutter_speed_loop self (dict_keys (_cams self)).

Definition _find_data_for (self : t) (s : Z) : _Data.t :=
  let value := {| values.v_stamp := s; values.v_reference := "world" |} in
  {| _Data.stamp := s;
     _Data.global_ := values.StereoImage_extrapolate (_raw self) value "global";
     _Data.rolling := values.StereoImage_extrapolate (_raw self) value "rolling";
     _Data.imu := values.ImuValue_extrapolate (_raw self) value;
     _Data.groundtruth := values.GroundTruth_extrapolate (_raw self) value |}.

(** *** Range queries: the generator of [_find_data_between] *)

(** [start is not None and time < start] *)
Definition before (start : option Z) (time : Z) : bool :=
  match start with
  | Some s => (time <? s)%Z
  | None => false
  end.

(** [stop is not None and time > stop] *)
Definition after (stop : option Z) (time : Z) : bool :=
  match stop with
  | Some s => (time >? s)%Z
  | None => false
  end.

(** The body of the generator, run from the item of index [i] of
    [self._times] (of which [rest] is what is left) up to the next [yield]:
    the record yielded and the index to go on from, or [None] when the loop
    ends. *)
Fixpoint _find_data_between_loop (self : t) (start stop : option Z)
    (rest : list Z) (i : nat) : option (_Data.t * nat) :=
  match rest with
  | [] => None
  | time :: rest' =>
      if before start time then
        _find_data_between_loop self start stop rest' (S i)
      else if after stop time then
        _find_data_between_loop self start stop rest' (S i)
      else Some (_find_data_for self time, S i)
  end.

(** A generator object: the arguments of the call, and the position of its
    loop in [self._times]; [None] once the generator has returned. *)
Record generator := {
  gi_self : t;
  gi_start : option Z;
  gi_stop : option Z;
  gi_frame : option nat
}.

(** Generator objects are kept in a store and named by their location. *)
Abbreviation loc := nat (only parsing).
Abbreviation heap := (list generator) (only parsing).

(** Calling a generator function runs none of its body: it allocates the
    generator object. *)
Definition _find_data_between (self : t) (start stop : option Z) (h : heap)
    : loc * heap :=
  (length h,
   (h ++ [{| gi_self := self; gi_start := start; gi_stop := stop;
             gi_frame := Some 0 |}])%list).

(** One step of a generator object; [None] is [StopIteration]. *)
Definition resume (g : generator) : option _Data.t * generator :=
  match gi_frame g with
  | None => (None, g)
  | Some i =>
      match _find_data_between_loop (gi_self g) (gi_start g) (gi_stop g)
              (drop i (_times (gi_self g))) i with
      | Some (data, j) =>
          (Some data,
           {| gi_self := gi_self g; gi_start := gi_start g;
              gi_stop := gi_stop g; gi_frame := Some j |})
      | None =>
          (None,
           {| gi_self := gi_self g; gi_start := gi_start g;
              gi_stop := gi_stop g; gi_frame := None |})
      end
  end.

(** [next(g)] *)
Definition next (g : loc) (h : heap) : option _Data.t * heap :=
  match h !! g with
  | Some gen => let '(r, gen') := resume gen in (r, <[g := gen']> h)
  | None => (None, h)
  end.

(** [for data in g], at most [fuel] rounds of it. *)
Fixpoint iterate (fuel : nat) (g : loc) (h : heap) : list _Data.t * heap :=
  match fuel with
  | O => ([], h)
  | S fuel' =>
      match next g h with
      | (Some data, h') =>
          let '(l, h'') := iterate fuel' g h' in (data :: l, h'')
      | (None, h') => ([], h')
      end
  end.

(** [list(g)]: the loop over [self._times] ends within one round more than
    there are times. *)
Definition list_ (g : loc) (h : heap) : list _Data.t * heap :=
  match h !! g with
  | Some gen => iterate (S (length (_times (gi_self gen)))) g h
  | None => ([], h)
  end.

(** What [dataset[...]] is indexed with. *)
Inductive Key :=
| Stamp (s : Z)
| Slice (start stop step : option Z).

(** What [dataset[...]] gives back. *)
Inductive Item :=
| Data (data : _Data.t)
| Generator (g : loc).

Definition __getitem__ (self : t) (stamp : Key) (h : heap)
    : result Item * heap :=
  match stamp with
  | Slice start stop step =>
      match step with
      | Some _ => (Raise (ValueError (SliceStep start stop step)), h)
      | None =>
          let '(g, h') := _find_data_between self start stop h in
          (Ok (Generator g), h')
      end
  | Stamp s => (Ok (Data (_find_data_for self s)), h)
  end.

End Dataset.

(** ** Vocabulary of the statements *)

(** The time stamps of a record file. *)
Definition stamps (a : ndarray) : list Z := map row_stamp (rows_of a).

(** [t] passes both tests of the loop of [_find_data_between]. *)
Definition within (start stop : option Z) (t : Z) : bool :=
  negb (Dataset.before start t) && negb (Dataset.after stop t).

(** [list(dataset[start:stop])]: the slice is taken, then read to its end. *)
Definition records (self : Dataset.t) (start stop : option Z) (h : Dataset.heap)
    : result (list _Data.t) :=
  match Dataset.__getitem__ self (Dataset.Slice start stop None) h with
  | (Ok (Dataset.Generator g), h') => Ok (fst (Dataset.list_ g h'))
  | (Ok (Dataset.Data data), _) => Ok [data]
  | (Raise e, _) => Raise e
  end.

(** The reference is one [__init__] enters in [_cams]: it is not ['world'] and
    has a ['shutter'] key. *)
Definition is_camera (entry : string * RefParams) : bool :=
  negb (String.eqb (fst entry) "world") && ref_contains "shutter" (snd entry).

(** [_refs[ref]] is entered in [_cams] by [__init__]. *)
Definition camera_ref (refs : list (string * RefParams)) (ref : string) : bool :=
  match dict_lookup ref refs with
  | Some r => is_camera (ref, r)
  | None => false
  end.

(** What an exception that [__init__] raises by its own checks tells about
    the record at [path]: which path is missing, or which key and where.
    Exceptions raised by indexing or inside the parsers are not described. *)
Definition load_error (fs : Disk) (path : string) (e : exn) : Prop :=
  let root := expand fs path in
  let timefile := p.join3 root "params" "time.yaml" in
  let paramfile := p.join3 root "params" "params.yaml" in
  match e with
  | IOError (MissingFolder folder) =>
      exists_ fs folder = false ∧
      (folder ∈ [p.join root "data"; p.join root "frames";
                 p.join root "params"] ∨
       ∃ cam, cam ∈ dict_keys (yaml_params fs paramfile) ∧
              folder = p.join3 root "params" cam)
  | IOError (MissingFile file) =>
      exists_ fs file = false ∧
      (file ∈ [p.join3 root "data" "frames.csv";
               p.join3 root "data" "imu.csv";
               p.join3 root "data" "ground_truth.csv";
               timefile; paramfile] ∨
       ∃ cam, cam ∈ dict_keys (yaml_params fs paramfile) ∧
              file ∈ [p.join (p.join3 root "params" cam) "gamma.txt";
                      p.join (p.join3 root "params" cam) "vignette.png"])
  | ValueError (MissingKey key file) =>
      (file = timefile ∧ key ∈ ["start"; "end"; "duration"] ∧
       ∃ time, dict_lookup "time" (yaml_time fs timefile) = Some time ∧
               dict_lookup key time = None) ∨
      (file = paramfile ∧ key = "transform" ∧
       ∃ ref r, dict_lookup ref (yaml_params fs paramfile) = Some r ∧
                ref ≠ "world" ∧ ref_transform r = None)
  | _ => True
  end.

(** The folder of a camera under [params]. *)
Definition camera_folder (d : Dataset.t) (cam : string) : string :=
  p.join3 (Dataset._path d) "params" cam.

(** A range query with the bounds [start'] and [stop'] asks for no less than
    one with [start] and [stop]. *)
Definition wider (start' stop' start stop : option Z) : Prop :=
  (∀ x, start' = Some x → ∃ y, start = Some y ∧ (x ≤ y)%Z) ∧
  (∀ x, stop' = Some x → ∃ y, stop = Some y ∧ (y ≤ x)%Z).

(** The [shutter] entry of a camera is as the calibration files have it: it
    names its type, and a rolling shutter has its speed. *)
Definition shutter_configured (r : RefParams) : Prop :=
  ∃ sh ty, ref_shutter r = Some sh ∧ sh_type sh = Some ty ∧
           (ty = "rolling" → is_Some (sh_speed sh)).

(** The camera is configured with shutter type ['rolling']. *)
Definition has_rolling_shutter (r : RefParams) : Prop :=
  ∃ sh, ref_shutter r = Some sh ∧ sh_type sh = Some "rolling".

(** The camera has a rolling shutter with the given delay between rows. *)
Definition rolling_camera (r : RefParams) (speed : Z) : Prop :=
  ∃ sh, ref_shutter r = Some sh ∧ sh_type sh = Some "rolling" ∧
        sh_speed sh = Some speed.

(** The record [__init__] returns, read off its successful run. *)
Record loaded (fs : Disk) (path : string) (d : Dataset.t) : Prop := {
  loaded_path : Dataset._path d = expand fs path;
  loaded_frames :
    Raw.frames (Dataset._raw d)
    = genfromtxt fs (p.join3 (Dataset._path d) "data" "frames.csv");
  loaded_imu :
    Raw.imu (Dataset._raw d)
    = genfromtxt fs (p.join3 (Dataset._path d) "data" "imu.csv");
  loaded_groundtruth :
    Raw.groundtruth (Dataset._raw d)
    = genfromtxt fs (p.join3 (Dataset._path d) "data" "ground_truth.csv");
  loaded_times :
    ∃ tf ti tg,
      col0 (Raw.frames (Dataset._raw d)) = Ok tf ∧
      col0 (Raw.imu (Dataset._raw d)) = Ok ti ∧
      col0 (Raw.groundtruth (Dataset._raw d)) = Ok tg ∧
      Dataset._times d = Dataset.sorted_union tf ti tg;
  loaded_time :
    dict_contains "start" (Dataset._time d) = true ∧
    dict_contains "end" (Dataset._time d) = true ∧
    dict_contains "duration" (Dataset._time d) = true;
  loaded_refs :
    Dataset._refs d
    = yaml_params fs (p.join3 (Dataset._path d) "params" "params.yaml");
  loaded_cams :
    Dataset.load_refs fs (Dataset._path d)
      (p.join3 (Dataset._path d) "params" "params.yaml")
      (Dataset._refs d) (dict_keys (Dataset._refs d)) [] []
    = Ok (Dataset._cams d, Dataset._gammas d)
}.

(** A generator object that has returned. *)
Definition finished (g : Dataset.generator) : Dataset.generator :=
  {| Dataset.gi_self := Dataset.gi_self g;
     Dataset.gi_start := Dataset.gi_start g;
     Dataset.gi_stop := Dataset.gi_stop g;
     Dataset.gi_frame := None |}.

(** ** A small record: the scenario of the design document *)

Module Scenario.

Definition row (s : Z) : Row := {| row_stamp := s; row_rest := [] |}.

Definition cam (ty : string) (speed : option Z) : RefParams :=
  {| ref_transform := Some [];
     ref_shutter := Some {| sh_type := Some ty; sh_speed := speed |};
     ref_exposure := Some {| exp_min := Some 1%Z; exp_max := Some 20%Z |} |}.

(** Stamps in tenths of a second: frames at 0.0, 1.0, 2.0, the IMU at 0.5
    and 1.5, the ground truth at 1.0; the record starts at 0.0 and ends at
    2.0. *)
Definition disk : Disk :=
  {| expand := fun path => path;
     exists_ := fun _ => true;
     genfromtxt := fun file =>
       if String.eqb file "rec/data/frames.csv" then Arr2 [row 0; row 10; row 20]%Z
       else if String.eqb file "rec/data/imu.csv" then Arr2 [row 5; row 15]%Z
       else if String.eqb file "rec/data/ground_truth.csv" then Arr2 [row 10]%Z
       else Arr1 [];
     yaml_time := fun _ =>
       [("time", [("start", 0%Z); ("end", 20%Z); ("duration", 20%Z)])];
     yaml_params := fun _ =>
       [("world", {| ref_transform := None; ref_shutter := None;
                     ref_exposure := None |});
        ("cam1", cam "global" None);
        ("cam3", cam "rolling" (Some 7%Z));
        ("imu", {| ref_transform := Some []; ref_shutter := None;
                   ref_exposure := None |})] |}.

Definition dataset : Dataset.t :=
  {| Dataset._path := "rec";
     Dataset._raw :=
       {| Raw.frames := Arr2 [row 0; row 10; row 20]%Z;
          Raw.imu := Arr2 [row 5; row 15]%Z;
          Raw.groundtruth := Arr2 [row 10]%Z |};
     Dataset._times := [0; 5; 10; 15; 20]%Z;
     Dataset._time := [("start", 0%Z); ("end", 20%Z); ("duration", 20%Z)];
     Dataset._refs := yaml_params disk "rec/params/params.yaml";
     Dataset._cams :=
       [("cam1", cam "global" None); ("cam3", cam "rolling" (Some 7%Z))];
     Dataset._gammas := [("cam1", Arr1 []); ("cam3", Arr1 [])] |}.

(** A record of the same frames and IMU samples, with the ground truth at
    1.0 and 2.0, whose [time.yaml] has it start at 0.7, after its first
    samples, and end at 1.3, before its last ones. *)
Definition late_disk : Disk :=
  {| expand := expand disk;
     exists_ := exists_ disk;
     genfromtxt := fun file =>
       if String.eqb file "rec/data/ground_truth.csv"
       then Arr2 [row 10; row 20]%Z
       else genfromtxt disk file;
     yaml_time := fun _ =>
       [("time", [("start", 7%Z); ("end", 13%Z); ("duration", 6%Z)])];
     yaml_params := yaml_params disk |}.

Definition late_dataset : Dataset.t :=
  {| Dataset._path := Dataset._path dataset;
     Dataset._raw :=
       {| Raw.frames := Arr2 [row 0; row 10; row 20]%Z;
          Raw.imu := Arr2 [row 5; row 15]%Z;
          Raw.groundtruth := Arr2 [row 10; row 20]%Z |};
     Dataset._times := [0; 5; 10; 15; 20]%Z;
     Dataset._time := [("start", 7%Z); ("end", 13%Z); ("duration", 6%Z)];
     Dataset._refs := Dataset._refs dataset;
     Dataset._cams := Dataset._cams dataset;
     Dataset._gammas := Dataset._gammas dataset |}.

(** The same record with no camera in [params.yaml]. *)
Definition bare_disk : Disk :=
  {| expand := expand disk;
     exists_ := exists_ disk;
     genfromtxt := genfromtxt disk;
     yaml_time := yaml_time disk;
     yaml_params := fun _ =>
       [("world", {| ref_transform := None; ref_shutter := None;
                     ref_exposure := None |});
        ("imu", {| ref_transform := Some []; ref_shutter := None;
                   ref_exposure := None |})] |}.

Definition bare_dataset : Dataset.t :=
  {| Dataset._path := Dataset._path dataset;
     Dataset._raw := Dataset._raw dataset;
     Dataset._times := Dataset._times dataset;
     Dataset._time := Dataset._time dataset;
     Dataset._refs := yaml_params bare_disk "rec/params/params.yaml";
     Dataset._cams := [];
     Dataset._gammas := [] |}.

(** The same record with a gamma table of 256 entries for each camera: the
    entry of the input [k] is [2 * k]. *)
Definition gamma_table : ndarray :=
  Arr1 (map (fun k => (2 * Z.of_nat k)%Z) (seq 0 256)).

Definition gamma_disk : Disk :=
  {| expand := expand disk;
     exists_ := exists_ disk;
     genfromtxt := fun file =>
       if String.eqb file "rec/params/cam1/gamma.txt" then gamma_table
       else if String.eqb file "rec/params/cam3/gamma.txt" then gamma_table
       else genfromtxt disk file;
     yaml_time := yaml_time disk;
     yaml_params := yaml_params disk |}.

Definition gamma_dataset : Dataset.t :=
  {| Dataset._path := Dataset._path dataset;
     Dataset._raw := Dataset._raw dataset;
     Dataset._times := Dataset._times dataset;
     Dataset._time := Dataset._time dataset;
     Dataset._refs := Dataset._refs dataset;
     Dataset._cams := Dataset._cams dataset;
     Dataset._gammas := [("cam1", gamma_table); ("cam3", gamma_table)] |}.

(** A record folder without its [data] folder. *)
Definition dataless_disk : Disk :=
  {| expand := expand disk;
     exists_ := fun path => negb (String.eqb path "rec/data");
     genfromtxt := genfromtxt disk;
     yaml_time := yaml_time disk;
     yaml_params := yaml_params disk |}.

End Scenario.

Example scenario_loads : Dataset.__init__ Scenario.disk "rec" = Ok Scenario.dataset.
Proof. vm_compute. reflexivity. Qed.

Example late_scenario_loads :
  Dataset.__init__ Scenario.late_disk "rec" = Ok Scenario.late_dataset.
Proof. vm_compute. reflexivity. Qed.

Example bare_scenario_loads :
  Dataset.__init__ Scenario.bare_disk "rec" = Ok Scenario.bare_dataset.
Proof. vm_compute. reflexivity. Qed.

(** ** The Timeline Index *)

Section Timeline.

Local Open Scope Z_scope.

Lemma elem_of_sorted_union (f i g : list Z) (t : Z) :
  t ∈ Dataset.sorted_union f i g ↔ t ∈ f ∨ t ∈ i ∨ t ∈ g.
Proof.
  unfold Dataset.sorted_union.
  rewrite merge_sort_Permutation, elem_of_elements.
  rewrite !elem_of_union, !elem_of_list_to_set. tauto.
Qed.

Lemma NoDup_sorted_union (f i g : list Z) : NoDup (Dataset.sorted_union f i g).
Proof.
  unfold Dataset.sorted_union.
  rewrite merge_sort_Permutation. apply NoDup_elements.
Qed.

(** A list sorted for [≤] that repeats no element is sorted for [<]. *)
Lemma StronglySorted_le_lt (l : list Z) :
  StronglySorted Z.le l → NoDup l → StronglySorted Z.lt l.
Proof.
  induction 1 as [|x l Hl IH Hx]; intros Hnd; [constructor|].
  apply NoDup_cons in Hnd as [Hnotin Hnd].
  constructor; [by apply IH|].
  rewrite Forall_forall in Hx |- *. intros y Hy.
  assert (x ≠ y) by (intros ->; by apply Hnotin).
  specialize (Hx y Hy). lia.
Qed.

Lemma sorted_union_increasing (f i g : list Z) :
  StronglySorted Z.lt (Dataset.sorted_union f i g).
Proof.
  apply StronglySorted_le_lt; [|apply NoDup_sorted_union].
  unfold Dataset.sorted_union. apply StronglySorted_merge_sort; apply _.
Qed.

End Timeline.

(** ** What a successful load establishes *)

Section Loading.

Import Dataset.

Lemma bind_Ok {A B} (m : result A) (f : A → result B) (b : B) :
  m ≫= f = Ok b → ∃ a, m = Ok a ∧ f a = Ok b.
Proof. destruct m as [a|e]; [eauto | discriminate]. Qed.

Lemma check_folder_Ok fs folder u :
  _check_folder_exists fs folder = Ok u → exists_ fs folder = true.
Proof. unfold _check_folder_exists. by destruct (exists_ fs folder). Qed.

Lemma check_file_Ok fs file u :
  _check_file_exists fs file = Ok u → exists_ fs file = true.
Proof. unfold _check_file_exists. by destruct (exists_ fs file). Qed.

Lemma check_key_Ok file contains key u :
  _check_contains_key file contains key = Ok u → contains key = true.
Proof. unfold _check_contains_key. by destruct (contains key). Qed.

Lemma init_loaded fs path d : __init__ fs path = Ok d → loaded fs path d.
Proof.
  unfold __init__. cbv zeta. intros H.
  repeat (apply bind_Ok in H as (? & ? & H); cbv beta in H).
  repeat match goal with
         | x : unit |- _ => destruct x
         | x : (_ * _)%type |- _ => destruct x
         | E : _check_contains_key _ _ _ = Ok _ |- _ => apply check_key_Ok in E
         end.
  injection H as <-. constructor; simpl; eauto 10.
Qed.

End Loading.

(** ** The generator of a range query *)

Section Range.

Import Dataset.
Local Open Scope Z_scope.

Lemma within_spec start stop t :
  within start stop t = true ↔
  (∀ s, start = Some s → s ≤ t) ∧ (∀ s, stop = Some s → t ≤ s).
Proof.
  unfold within, before, after. rewrite andb_true_iff, !negb_true_iff.
  destruct start as [a|], stop as [b|];
    rewrite ?Z.gtb_ltb, ?Z.ltb_ge; split.
  all: intros [Ha Hb]; split.
  all: try (intros ? [= <-]; lia).
  all: try (intros ? [=]).
  all: try reflexivity.
  all: eauto.
Qed.

(** One run of the loop body up to the next [yield]. *)
Lemma loop_spec self start stop rest i :
  match _find_data_between_loop self start stop rest i with
  | None => List.filter (within start stop) rest = []
  | Some (data, j) =>
      ∃ k, j = (i + S k)%nat ∧ (S k ≤ length rest)%nat ∧
           data = _find_data_for self (_Data.stamp data) ∧
           List.filter (within start stop) rest
           = _Data.stamp data :: List.filter (within start stop) (drop (S k) rest)
  end.
Proof.
  revert i. induction rest as [|time rest IH]; intros i; simpl; [done|].
  assert (within start stop time
          = negb (before start time) && negb (after stop time)) as ->
    by reflexivity.
  specialize (IH (S i)).
  destruct (before start time), (after stop time); simpl.
  4: { exists 0%nat. repeat split; first [lia | done]. }
  all: destruct (_find_data_between_loop self start stop rest (S i))
         as [[data j]|]; [|done].
  all: destruct IH as (k & -> & ? & ? & ?); exists (S k).
  all: repeat split; first [lia | done].
Qed.

(** Reading a suspended generator to its end gives the records of the
    times left that pass the tests, and leaves the generator returned. *)
Lemma iterate_spec fuel g h gen i :
  h !! g = Some gen →
  gi_frame gen = Some i →
  (length (drop i (_times (gi_self gen))) < fuel)%nat →
  iterate fuel g h
  = (map (_find_data_for (gi_self gen))
       (List.filter (within (gi_start gen) (gi_stop gen))
          (drop i (_times (gi_self gen)))),
     <[g := finished gen]> h).
Proof.
  revert h gen i. induction fuel as [|fuel IH]; intros h gen i Hg Hi Hfuel;
    [lia|].
  simpl. unfold next. rewrite Hg. unfold resume. rewrite Hi.
  pose proof (loop_spec (gi_self gen) (gi_start gen) (gi_stop gen)
                (drop i (_times (gi_self gen))) i) as Hloop.
  destruct (_find_data_between_loop _ _ _ _ _) as [[data j]|].
  - destruct Hloop as (k & -> & Hk & Hdata & Hfilter).
    rewrite drop_drop in Hfilter.
    set (gen' := {| gi_self := gi_self gen; gi_start := gi_start gen;
                    gi_stop := gi_stop gen; gi_frame := Some (i + S k)%nat |}).
    assert (g < length h)%nat as Hlt by (by eapply lookup_lt_Some).
    rewrite (IH (<[g := gen']> h) gen' (i + S k)%nat).
    + simpl. rewrite Hfilter, list_insert_insert_eq. simpl.
      by rewrite <- Hdata.
    + by apply list_lookup_insert_eq.
    + done.
    + simpl. rewrite length_drop in *. lia.
  - by rewrite Hloop.
Qed.

(** A generator that has returned raises [StopIteration] ever after. *)
Lemma next_finished g h gen :
  h !! g = Some gen → gi_frame gen = None → next g h = (None, h).
Proof.
  intros Hg Hf. unfold next, resume. rewrite Hg, Hf.
  by rewrite list_insert_id.
Qed.

(** Stepping one generator leaves every other one as it is. *)
Lemma next_other g g' h : g ≠ g' → (next g h).2 !! g' = h !! g'.
Proof.
  intros Hne. unfold next. destruct (h !! g) as [gen|]; [|done].
  destruct (resume gen) as [r gen']. simpl. by apply list_lookup_insert_ne.
Qed.

Lemma iterate_other fuel g g' h :
  g ≠ g' → (iterate fuel g h).2 !! g' = h !! g'.
Proof.
  intros Hne. revert h. induction fuel as [|fuel IH]; intros h; [done|].
  simpl. pose proof (next_other g g' h Hne) as Hnext.
  destruct (next g h) as [[data|] h']; simpl in *; [|done].
  specialize (IH h'). destruct (iterate fuel g h') as [l h'']. simpl in *.
  congruence.
Qed.

Lemma getitem_slice self start stop h :
  __getitem__ self (Slice start stop None) h
  = (Ok (Generator (length h)),
     (h ++ [{| gi_self := self; gi_start := start; gi_stop := stop;
               gi_frame := Some 0%nat |}])%list).
Proof. reflexivity. Qed.

(** [list(g)] of a generator that has not been stepped yet. *)
Lemma list_fresh g h self start stop :
  h !! g = Some {| gi_self := self; gi_start := start; gi_stop := stop;
                   gi_frame := Some 0%nat |} →
  list_ g h
  = (map (_find_data_for self) (List.filter (within start stop) (_times self)),
     <[g := {| gi_self := self; gi_start := start; gi_stop := stop;
               gi_frame := None |}]> h).
Proof.
  intros Hg. unfold list_. rewrite Hg. simpl gi_self.
  erewrite iterate_spec; [| exact Hg | reflexivity |]; [done|].
  simpl. rewrite drop_0. lia.
Qed.

Lemma records_spec self start stop h :
  records self start stop h
  = Ok (map (_find_data_for self)
          (List.filter (within start stop) (_times self))).
Proof.
  unfold records. rewrite getitem_slice.
  erewrite list_fresh; [done|].
  rewrite lookup_app_r by done. by rewrite Nat.sub_diag.
Qed.

Lemma stamp_find_data_for self s : _Data.stamp (_find_data_for self s) = s.
Proof. reflexivity. Qed.

Lemma stamps_find_data_for self (l : list Z) :
  map _Data.stamp (map (_find_data_for self) l) = l.
Proof. rewrite map_map. simpl. apply map_id. Qed.

End Range.

(** ** Exact matches *)

Section Exact.

Lemma col0_stamps a l : col0 a = Ok l → l = stamps a.
Proof. destruct a; [discriminate|]. by intros [= <-]. Qed.

Lemma exact_None (stream : list Row) (s : Z) :
  values.exact stream s = None ↔ s ∉ map row_stamp stream.
Proof.
  unfold values.exact. induction stream as [|r stream IH]; simpl.
  - split; [|done]. intros _. apply not_elem_of_nil.
  - rewrite not_elem_of_cons. destruct (Z.eqb_spec (row_stamp r) s) as [Heq|Hne].
    + split; [done|]. by intros [? _].
    + rewrite IH. split; [by intros ?; split|by intros [_ ?]].
Qed.

Lemma exact_is_Some (stream : list Row) (s : Z) :
  is_Some (values.exact stream s) ↔ s ∈ map row_stamp stream.
Proof.
  rewrite <- not_eq_None_Some, exact_None.
  destruct (decide (s ∈ map row_stamp stream)); tauto.
Qed.

Lemma exact_Some (stream : list Row) (s : Z) (r : Row) :
  values.exact stream s = Some r → r ∈ stream ∧ row_stamp r = s.
Proof.
  unfold values.exact. intros H. apply find_some in H as [Hin Heq].
  split; [by apply list_elem_of_In | by apply Z.eqb_eq].
Qed.

End Exact.

Lemma StronglySorted_filter_bool {A} (R : relation A) (f : A → bool) (l : list A) :
  StronglySorted R l → StronglySorted R (List.filter f l).
Proof.
  induction 1 as [|x l Hl IH Hx]; simpl; [constructor|].
  destruct (f x); [|done]. constructor; [done|].
  rewrite Forall_forall in Hx |- *. intros y Hy. apply Hx.
  apply list_elem_of_In in Hy. apply filter_In in Hy as [Hy _].
  by apply list_elem_of_In.
Qed.

Lemma timeline_sorted (fs : Disk) (path : string) (d : Dataset.t) :
  Dataset.__init__ fs path = Ok d →
  StronglySorted Z.lt (Dataset.times d) ∧
  ∀ t : Z, t ∈ Dataset.times d ↔
           t ∈ stamps (Raw.frames (Dataset.raw d)) ∨
           t ∈ stamps (Raw.imu (Dataset.raw d)) ∨
           t ∈ stamps (Raw.groundtruth (Dataset.raw d)).
Proof.
  intros Hinit. apply init_loaded in Hinit.
  destruct (loaded_times _ _ _ Hinit) as (tf & ti & tg & Hf & Hi & Hg & Htimes).
  apply col0_stamps in Hf, Hi, Hg. subst tf ti tg.
  unfold Dataset.times, Dataset.raw. rewrite Htimes. split.
  - apply sorted_union_increasing.
  - intros t. apply elem_of_sorted_union.
Qed.

(** ** The statements of the design document *)

(** C1: for every loaded dataset, the Timeline Index ([times]) has exactly the
    time stamps of the record files of the sensor streams (it is their set
    union), is sorted strictly increasing, and repeats no time stamp. *)
Theorem timeline_index_sorted_union (fs : Disk) (path : string) (d : Dataset.t) :
  Dataset.__init__ fs path = Ok d →
  (∀ t : Z, t ∈ Dataset.times d ↔
            t ∈ stamps (Raw.frames (Dataset.raw d)) ∨
            t ∈ stamps (Raw.imu (Dataset.raw d)) ∨
            t ∈ stamps (Raw.groundtruth (Dataset.raw d)))
  ∧ StronglySorted Z.lt (Dataset.times d)
  ∧ NoDup (Dataset.times d).
Proof.
  intros Hinit. apply init_loaded in Hinit.
  destruct (loaded_times _ _ _ Hinit) as (tf & ti & tg & Hf & Hi & Hg & Htimes).
  apply col0_stamps in Hf, Hi, Hg. subst tf ti tg.
  unfold Dataset.times, Dataset.raw. rewrite Htimes. split; [|split].
  - intros t. apply elem_of_sorted_union.
  - apply sorted_union_increasing.
  - apply NoDup_sorted_union.
Qed.

Lemma timeline_index_sorted_union_witness :
  (∀ t : Z, t ∈ Dataset.times Scenario.dataset ↔
            t ∈ stamps (Raw.frames (Dataset.raw Scenario.dataset)) ∨
            t ∈ stamps (Raw.imu (Dataset.raw Scenario.dataset)) ∨
            t ∈ stamps (Raw.groundtruth (Dataset.raw Scenario.dataset)))
  ∧ StronglySorted Z.lt (Dataset.times Scenario.dataset)
  ∧ NoDup (Dataset.times Scenario.dataset).
Proof.
  apply (timeline_index_sorted_union Scenario.disk "rec" Scenario.dataset).
  vm_compute. reflexivity.
Defined.

(** C2: the range query [dataset[start:stop]] of a loaded dataset yields, in
    ascending order of time stamp, exactly the records of the exact point
    lookup at the times [t] of the Timeline Index with [start <= t <= stop],
    the test of an open bound being skipped; a time equal to [stop] is
    included, any time greater than [stop] is excluded.  Reading the generator
    ends: it has returned once its records are listed. *)
Theorem range_query_inclusive
    (fs : Disk) (path : string) (d : Dataset.t) (start stop : option Z)
    (h : list Dataset.generator) :
  Dataset.__init__ fs path = Ok d →
  ∃ g h' l h'',
    Dataset.__getitem__ d (Dataset.Slice start stop None) h
      = (Ok (Dataset.Generator g), h') ∧
    Dataset.list_ g h' = (l, h'') ∧
    (∃ gen, h'' !! g = Some gen ∧ Dataset.gi_frame gen = None) ∧
    l = map (Dataset._find_data_for d)
          (List.filter (within start stop) (Dataset.times d)) ∧
    (∀ (t : Z) h0, Dataset.__getitem__ d (Dataset.Stamp t) h0
                   = (Ok (Dataset.Data (Dataset._find_data_for d t)), h0)) ∧
    (∀ t : Z, t ∈ List.filter (within start stop) (Dataset.times d) ↔
              t ∈ Dataset.times d ∧
              (∀ s, start = Some s → (s ≤ t)%Z) ∧
              (∀ s, stop = Some s → (t ≤ s)%Z)) ∧
    StronglySorted Z.lt (map _Data.stamp l) ∧
    (∀ s : Z, stop = Some s → s ∈ Dataset.times d →
              (∀ a, start = Some a → (a ≤ s)%Z) →
              Dataset._find_data_for d s ∈ l) ∧
    (∀ (s : Z) (data : _Data.t),
        stop = Some s → data ∈ l → (_Data.stamp data ≤ s)%Z).
Proof.
  intros Hinit.
  destruct (timeline_sorted fs path d Hinit) as [Hsorted _].
  assert (∀ t : Z, t ∈ List.filter (within start stop) (Dataset.times d) ↔
                   t ∈ Dataset.times d ∧
                   (∀ s, start = Some s → (s ≤ t)%Z) ∧
                   (∀ s, stop = Some s → (t ≤ s)%Z)) as Hmem.
  { intros t. rewrite !list_elem_of_In, filter_In, within_spec. tauto. }
  eexists _, _, _, _. split; [apply getitem_slice|].
  split; [apply list_fresh; rewrite lookup_app_r by done;
          by rewrite Nat.sub_diag|].
  split.
  { eexists. split.
    - apply list_lookup_insert_eq. rewrite length_app. simpl. lia.
    - reflexivity. }
  split; [done|]. split; [done|]. split; [done|]. split.
  { rewrite stamps_find_data_for. by apply StronglySorted_filter_bool. }
  split.
  - intros s Hstop Hs Hstart. apply list_elem_of_In, in_map, list_elem_of_In.
    apply Hmem. split; [done|]. split; [done|]. intros ? ?. simplify_eq. lia.
  - intros s data Hstop Hdata.
    apply list_elem_of_In, in_map_iff in Hdata as (t & <- & Ht).
    apply list_elem_of_In, Hmem in Ht as (_ & _ & Ht). simpl. by apply Ht.
Qed.

Lemma range_query_inclusive_witness :
  Dataset.__init__ Scenario.disk "rec" = Ok Scenario.dataset ∧
  ∃ g h' l h'',
    Dataset.__getitem__ Scenario.dataset
        (Dataset.Slice (Some 5%Z) (Some 15%Z) None) []
      = (Ok (Dataset.Generator g), h') ∧
    Dataset.list_ g h' = (l, h'') ∧
    (∃ gen, h'' !! g = Some gen ∧ Dataset.gi_frame gen = None) ∧
    l = map (Dataset._find_data_for Scenario.dataset)
          (List.filter (within (Some 5%Z) (Some 15%Z))
             (Dataset.times Scenario.dataset)) ∧
    (∀ (t : Z) h0,
        Dataset.__getitem__ Scenario.dataset (Dataset.Stamp t) h0
        = (Ok (Dataset.Data (Dataset._find_data_for Scenario.dataset t)), h0)) ∧
    (∀ t : Z, t ∈ List.filter (within (Some 5%Z) (Some 15%Z))
                    (Dataset.times Scenario.dataset) ↔
              t ∈ Dataset.times Scenario.dataset ∧
              (∀ s, Some 5%Z = Some s → (s ≤ t)%Z) ∧
              (∀ s, Some 15%Z = Some s → (t ≤ s)%Z)) ∧
    StronglySorted Z.lt (map _Data.stamp l) ∧
    (∀ s : Z, Some 15%Z = Some s → s ∈ Dataset.times Scenario.dataset →
              (∀ a, Some 5%Z = Some a → (a ≤ s)%Z) →
              Dataset._find_data_for Scenario.dataset s ∈ l) ∧
    (∀ (s : Z) (data : _Data.t),
        Some 15%Z = Some s → data ∈ l → (_Data.stamp data ≤ s)%Z).
Proof.
  split; [vm_compute; reflexivity|].
  apply (range_query_inclusive Scenario.disk "rec").
  vm_compute. reflexivity.
Defined.

(** In the scenario, the record of the time 1.0 has the frames and the ground
    truth, and no IMU sample. *)
Example scenario_point :
  ∃ data, Dataset.__getitem__ Scenario.dataset (Dataset.Stamp 10%Z) []
          = (Ok (Dataset.Data data), []) ∧
          is_Some (_Data.global_ data) ∧ is_Some (_Data.rolling data) ∧
          _Data.imu data = None ∧ is_Some (_Data.groundtruth data) ∧
          _Data.stamp data = 10%Z.
Proof. eexists. split; [reflexivity|]. vm_compute. eauto 10. Qed.

(** The range [0.5 .. 1.5] of the scenario has the three records of the times
    0.5, 1.0 and 1.5. *)
Example scenario_range :
  records Scenario.dataset (Some 5%Z) (Some 15%Z) []
  = Ok (map (Dataset._find_data_for Scenario.dataset) [5; 10; 15]%Z).
Proof. vm_compute. reflexivity. Qed.

(** C4: a slice with a step that is not [None] raises [ValueError] at once:
    no generator is made, so no record is ever yielded. *)
Theorem slice_step_rejected
    (d : Dataset.t) (start stop : option Z) (step : Z)
    (h : list Dataset.generator) :
  Dataset.__getitem__ d (Dataset.Slice start stop (Some step)) h
  = (Raise (ValueError (SliceStep start stop (Some step))), h).
Proof. reflexivity. Qed.

(** C7: for every time [t] of the Timeline Index of a loaded dataset, the
    point lookup [dataset[t]] gives a record with at least one of [global_],
    [rolling], [imu] and [groundtruth] present. *)
Theorem exact_match_complete
    (fs : Disk) (path : string) (d : Dataset.t) (t : Z)
    (h : list Dataset.generator) :
  Dataset.__init__ fs path = Ok d →
  t ∈ Dataset.times d →
  ∃ data : _Data.t,
    Dataset.__getitem__ d (Dataset.Stamp t) h = (Ok (Dataset.Data data), h) ∧
    (is_Some (_Data.global_ data) ∨ is_Some (_Data.rolling data) ∨
     is_Some (_Data.imu data) ∨ is_Some (_Data.groundtruth data)).
Proof.
  intros Hinit Ht. eexists. split; [reflexivity|].
  apply (timeline_sorted fs path d Hinit) in Ht. simpl.
  unfold values.StereoImage_extrapolate, values.ImuValue_extrapolate,
    values.GroundTruth_extrapolate, Dataset.raw, stamps in *. simpl.
  destruct Ht as [Ht|[Ht|Ht]]; apply exact_is_Some in Ht as [r Hr];
    rewrite Hr; eauto.
Qed.

Lemma exact_match_complete_witness :
  Dataset.__init__ Scenario.disk "rec" = Ok Scenario.dataset ∧
  5%Z ∈ Dataset.times Scenario.dataset ∧
  ∃ data : _Data.t,
    Dataset.__getitem__ Scenario.dataset (Dataset.Stamp 5%Z) []
      = (Ok (Dataset.Data data), []) ∧
    (is_Some (_Data.global_ data) ∨ is_Some (_Data.rolling data) ∨
     is_Some (_Data.imu data) ∨ is_Some (_Data.groundtruth data)).
Proof.
  split; [vm_compute; reflexivity|].
  split; [vm_compute; apply list_elem_of_In; simpl; tauto|].
  apply (exact_match_complete Scenario.disk "rec").
  - vm_compute. reflexivity.
  - apply list_elem_of_In. simpl. tauto.
Defined.

(** C9: the record of a point query carries the queried time as its [stamp],
    and the records of a range query carry, in order, the times of the
    Timeline Index they were looked up at, whatever their modality fields
    are. *)
Theorem record_stamp_is_query_stamp
    (d : Dataset.t) (h : list Dataset.generator) :
  (∀ s : Z, ∃ data : _Data.t,
      Dataset.__getitem__ d (Dataset.Stamp s) h = (Ok (Dataset.Data data), h) ∧
      _Data.stamp data = s) ∧
  (∀ start stop : option Z, ∃ l : list _Data.t,
      records d start stop h = Ok l ∧
      map _Data.stamp l = List.filter (within start stop) (Dataset.times d)).
Proof.
  split.
  - intros s. eexists. split; reflexivity.
  - intros start stop. eexists. split; [apply records_spec|].
    apply stamps_find_data_for.
Qed.

(** ** Open bounds *)

Section OpenBounds.

Local Open Scope Z_scope.

Lemma records_open_start d stop a h :
  (∀ t, t ∈ Dataset.times d → a ≤ t) →
  records d None stop h = records d (Some a) stop h.
Proof.
  intros Ha. rewrite !records_spec. do 2 f_equal.
  apply filter_ext_in. intros t Ht%list_elem_of_In%Ha.
  unfold within, Dataset.before. f_equal. symmetry.
  apply negb_true_iff, Z.ltb_ge, Ht.
Qed.

Lemma records_open_stop d start b h :
  (∀ t, t ∈ Dataset.times d → t ≤ b) →
  records d start None h = records d start (Some b) h.
Proof.
  intros Hb. rewrite !records_spec. do 2 f_equal.
  apply filter_ext_in. intros t Ht%list_elem_of_In%Hb.
  unfold within, Dataset.after. f_equal. symmetry.
  rewrite Z.gtb_ltb. apply negb_true_iff, Z.ltb_ge, Ht.
Qed.

Lemma sorted_head_least (l : list Z) (a t : Z) :
  StronglySorted Z.lt l → head l = Some a → t ∈ l → a ≤ t.
Proof.
  intros Hl Ha Ht. destruct l as [|x l]; [done|]. simplify_eq/=.
  apply StronglySorted_inv in Hl as [_ Hl].
  apply elem_of_cons in Ht as [->|Ht]; [lia|].
  rewrite Forall_forall in Hl. specialize (Hl t Ht). lia.
Qed.

Lemma sorted_last_greatest (l : list Z) (b t : Z) :
  StronglySorted Z.lt l → last l = Some b → t ∈ l → t ≤ b.
Proof.
  intros Hl Hb Ht. apply last_Some in Hb as [l' ->].
  apply elem_of_app in Ht as [Ht|Ht%list_elem_of_singleton]; [|lia].
  assert (t < b); [|lia].
  eapply (StronglySorted_app_1_elem_of Z.lt); [done..|].
  apply list_elem_of_singleton. done.
Qed.

End OpenBounds.

(** C5: the code on a record it loads, whose [time.yaml] has it start at 0.7
    and end at 1.3 while its samples run from 0.0 to 2.0.  The open bounds
    are not clamped to [start] and [end]: [dataset[:1.0]] has the records of
    0.0, 0.5 and 1.0 where [dataset[0.7:1.0]] has the one of 1.0, and
    [dataset[1.0:]] has those of 1.0, 1.5 and 2.0 where [dataset[1.0:1.3]]
    has the one of 1.0.  Nor is a bound given outside of them, against the
    documentation of [__getitem__]: [dataset[0.0:1.0]] yields the records of
    0.0 and 0.5, before [start]. *)
Theorem open_bound_ignores_metadata :
  Dataset.__init__ Scenario.late_disk "rec" = Ok Scenario.late_dataset ∧
  Dataset.start Scenario.late_dataset = Ok 7%Z ∧
  Dataset.end_ Scenario.late_dataset = Ok 13%Z ∧
  records Scenario.late_dataset None (Some 10%Z) []
  = Ok (map (Dataset._find_data_for Scenario.late_dataset) [0; 5; 10]%Z) ∧
  records Scenario.late_dataset (Some 7%Z) (Some 10%Z) []
  = Ok (map (Dataset._find_data_for Scenario.late_dataset) [10]%Z) ∧
  records Scenario.late_dataset (Some 10%Z) None []
  = Ok (map (Dataset._find_data_for Scenario.late_dataset) [10; 15; 20]%Z) ∧
  records Scenario.late_dataset (Some 10%Z) (Some 13%Z) []
  = Ok (map (Dataset._find_data_for Scenario.late_dataset) [10]%Z) ∧
  records Scenario.late_dataset (Some 0%Z) (Some 10%Z) []
  = Ok (map (Dataset._find_data_for Scenario.late_dataset) [0; 5; 10]%Z).
Proof. repeat split; vm_compute; reflexivity. Qed.

(** X20: an open bound of a range query skips the test of that bound and
    raises nothing: [dataset[None:stop]] yields the sequence of
    [dataset[a:stop]] for every [a] that no time of the Timeline Index
    precedes, so for its first time, and for the [start] of the metadata when
    no time precedes it; and [dataset[a:None]] yields the sequence of
    [dataset[a:b]] for every [b] that no time of the Timeline Index follows,
    so for its last time, and for the [end] of the metadata when no time
    follows it. *)
Theorem open_bound_skips_test
    (fs : Disk) (path : string) (d : Dataset.t) (h : list Dataset.generator) :
  Dataset.__init__ fs path = Ok d →
  (∀ start stop, ∃ l, records d start stop h = Ok l) ∧
  (∀ stop a, (∀ t, t ∈ Dataset.times d → (a ≤ t)%Z) →
             records d None stop h = records d (Some a) stop h) ∧
  (∀ start b, (∀ t, t ∈ Dataset.times d → (t ≤ b)%Z) →
              records d start None h = records d start (Some b) h) ∧
  (∀ stop a, head (Dataset.times d) = Some a →
             records d None stop h = records d (Some a) stop h) ∧
  (∀ start b, last (Dataset.times d) = Some b →
              records d start None h = records d start (Some b) h) ∧
  (∀ stop s, Dataset.start d = Ok s →
             (∀ t, t ∈ Dataset.times d → (s ≤ t)%Z) →
             records d None stop h = records d (Some s) stop h) ∧
  (∀ start e, Dataset.end_ d = Ok e →
              (∀ t, t ∈ Dataset.times d → (t ≤ e)%Z) →
              records d start None h = records d start (Some e) h).
Proof.
  intros Hinit. destruct (timeline_sorted fs path d Hinit) as [Hsorted _].
  split; [intros; eexists; apply records_spec|].
  split; [intros; by apply records_open_start|].
  split; [intros; by apply records_open_stop|].
  split.
  { intros stop a Ha. apply records_open_start. intros t Ht.
    by eapply sorted_head_least. }
  split.
  { intros start b Hb. apply records_open_stop. intros t Ht.
    by eapply sorted_last_greatest. }
  split; [intros; by apply records_open_start|].
  intros; by apply records_open_stop.
Qed.

Lemma open_bound_skips_test_witness :
  Dataset.__init__ Scenario.late_disk "rec" = Ok Scenario.late_dataset ∧
  (∀ start stop, ∃ l, records Scenario.late_dataset start stop [] = Ok l) ∧
  (∀ stop a, (∀ t, t ∈ Dataset.times Scenario.late_dataset → (a ≤ t)%Z) →
             records Scenario.late_dataset None stop []
             = records Scenario.late_dataset (Some a) stop []) ∧
  (∀ start b, (∀ t, t ∈ Dataset.times Scenario.late_dataset → (t ≤ b)%Z) →
              records Scenario.late_dataset start None []
              = records Scenario.late_dataset start (Some b) []) ∧
  (∀ stop a, head (Dataset.times Scenario.late_dataset) = Some a →
             records Scenario.late_dataset None stop []
             = records Scenario.late_dataset (Some a) stop []) ∧
  (∀ start b, last (Dataset.times Scenario.late_dataset) = Some b →
              records Scenario.late_dataset start None []
              = records Scenario.late_dataset start (Some b) []) ∧
  (∀ stop s, Dataset.start Scenario.late_dataset = Ok s →
             (∀ t, t ∈ Dataset.times Scenario.late_dataset → (s ≤ t)%Z) →
             records Scenario.late_dataset None stop []
             = records Scenario.late_dataset (Some s) stop []) ∧
  (∀ start e, Dataset.end_ Scenario.late_dataset = Ok e →
              (∀ t, t ∈ Dataset.times Scenario.late_dataset → (t ≤ e)%Z) →
              records Scenario.late_dataset start None []
              = records Scenario.late_dataset start (Some e) []).
Proof.
  split; [vm_compute; reflexivity|].
  apply (open_bound_skips_test Scenario.late_disk "rec").
  vm_compute. reflexivity.
Defined.

(** In the scenario the metadata bounds enclose the Timeline Index, and the
    open bounds agree with them. *)
Example scenario_open_bounds :
  records Scenario.dataset None (Some 10%Z) []
  = records Scenario.dataset (Some 0%Z) (Some 10%Z) [] ∧
  records Scenario.dataset (Some 5%Z) None []
  = records Scenario.dataset (Some 5%Z) (Some 20%Z) [].
Proof. split; vm_compute; reflexivity. Qed.

(** ** Restarting *)

(** A generator object is read once: listed again, it has nothing left.  It
    is the call [dataset[start:stop]] that starts over. *)
Remark generator_read_once (g : nat) (h : list Dataset.generator)
    (self : Dataset.t) (start stop : option Z) :
  h !! g = Some {| Dataset.gi_self := self; Dataset.gi_start := start;
                   Dataset.gi_stop := stop; Dataset.gi_frame := Some 0%nat |} →
  (Dataset.list_ g (Dataset.list_ g h).2).1 = [].
Proof.
  intros Hg. rewrite (list_fresh _ _ _ _ _ Hg). simpl.
  match goal with |- context [<[g := ?gen]> h] =>
    assert (<[g := gen]> h !! g = Some gen) as Hfin
      by (apply list_lookup_insert_eq; by eapply lookup_lt_Some)
  end.
  unfold Dataset.list_. rewrite Hfin. simpl.
  by rewrite (next_finished _ _ _ Hfin eq_refl).
Qed.

(** C6: two calls of [dataset[a:b]] give two distinct generators; read to
    their end, in either order, they give the same finite sequence of records,
    no longer than the Timeline Index; stepping one leaves the other as it is;
    and a call made after an earlier generator was read to its end starts from
    the first record again. *)
Theorem range_query_restartable
    (d : Dataset.t) (a b : option Z) (h : list Dataset.generator) :
  ∃ (g1 g2 : nat) (h1 h2 : list Dataset.generator) (l : list _Data.t),
    Dataset.__getitem__ d (Dataset.Slice a b None) h
      = (Ok (Dataset.Generator g1), h1) ∧
    Dataset.__getitem__ d (Dataset.Slice a b None) h1
      = (Ok (Dataset.Generator g2), h2) ∧
    g1 ≠ g2 ∧
    (length l ≤ length (Dataset.times d))%nat ∧
    (∃ h3 h4, Dataset.list_ g1 h2 = (l, h3) ∧ h3 !! g2 = h2 !! g2 ∧
              Dataset.list_ g2 h3 = (l, h4)) ∧
    (∃ h3 h4, Dataset.list_ g2 h2 = (l, h3) ∧ h3 !! g1 = h2 !! g1 ∧
              Dataset.list_ g1 h3 = (l, h4)) ∧
    (∀ fuel, (Dataset.iterate fuel g1 h2).2 !! g2 = h2 !! g2) ∧
    (∀ fuel, (Dataset.iterate fuel g2 h2).2 !! g1 = h2 !! g1) ∧
    (∃ h3 g3 h4 h5,
        Dataset.list_ g1 h1 = (l, h3) ∧
        Dataset.__getitem__ d (Dataset.Slice a b None) h3
          = (Ok (Dataset.Generator g3), h4) ∧
        Dataset.list_ g3 h4 = (l, h5)).
Proof.
  set (fresh := {| Dataset.gi_self := d; Dataset.gi_start := a;
                   Dataset.gi_stop := b; Dataset.gi_frame := Some 0%nat |}).
  set (h1 := (h ++ [fresh])%list). set (h2 := (h1 ++ [fresh])%list).
  assert (length h ≠ length h1) as Hne
    by (unfold h1; rewrite length_app; simpl; lia).
  assert (h2 !! length h = Some fresh) as Hg1.
  { unfold h2, h1. rewrite lookup_app_l by (rewrite length_app; simpl; lia).
    rewrite lookup_app_r by done. by rewrite Nat.sub_diag. }
  assert (h2 !! length h1 = Some fresh) as Hg2.
  { unfold h2. rewrite lookup_app_r by done. by rewrite Nat.sub_diag. }
  exists (length h), (length h1), h1, h2.
  eexists. split; [apply getitem_slice|]. split; [apply getitem_slice|].
  split; [done|].
  split; [|split; [|split; [|split; [|split]]]].
  - rewrite length_map. apply filter_length_le.
  - eexists _, _. split; [by apply list_fresh|]. split.
    + by apply list_lookup_insert_ne.
    + apply list_fresh. by rewrite list_lookup_insert_ne.
  - eexists _, _. split; [by apply list_fresh|]. split.
    + by apply list_lookup_insert_ne.
    + apply list_fresh. by rewrite list_lookup_insert_ne.
  - intros fuel. by apply iterate_other.
  - intros fuel. by apply iterate_other.
  - eexists _, _, _, _. split; [|split].
    + apply list_fresh. unfold h1. rewrite lookup_app_r by done.
      by rewrite Nat.sub_diag.
    + apply getitem_slice.
    + apply list_fresh. rewrite lookup_app_r by done. by rewrite Nat.sub_diag.
Qed.

(** ** The camera map *)

Section Cameras.

Import Dataset.

Lemma dict_keys_set {V} (key : string) (v : V) (d : list (string * V)) :
  dict_keys (dict_set key v d)
  = if decide (key ∈ dict_keys d) then dict_keys d
    else (dict_keys d ++ [key])%list.
Proof.
  induction d as [|[k w] d IH]; simpl; [done|].
  destruct (String.eqb_spec k key) as [->|Hne]; simpl.
  - rewrite decide_True; [done|]. apply elem_of_cons. by left.
  - rewrite IH. destruct (decide (key ∈ dict_keys d)) as [Hin|Hnotin].
    + rewrite decide_True; [done|]. apply elem_of_cons. by right.
    + rewrite decide_False; [done|]. rewrite elem_of_cons.
      intros [Heq|Hin]; [congruence|done].
Qed.

Lemma NoDup_dict_set {V} (key : string) (v : V) (d : list (string * V)) :
  NoDup (dict_keys d) → NoDup (dict_keys (dict_set key v d)).
Proof.
  intros Hd. rewrite dict_keys_set. case_decide; [done|].
  apply NoDup_app. split; [done|]. split; [|apply NoDup_singleton].
  intros x Hx ->%list_elem_of_singleton. done.
Qed.

Lemma dict_lookup_NoDup {V} (key : string) (v : V) (d : list (string * V)) :
  NoDup (dict_keys d) → (key, v) ∈ d → dict_lookup key d = Some v.
Proof.
  induction d as [|[k w] d IH]; simpl; intros Hd Hin.
  - by apply elem_of_nil in Hin.
  - apply NoDup_cons in Hd as [Hk Hd].
    apply elem_of_cons in Hin as [[= <- <-]|Hin].
    + by rewrite String.eqb_refl.
    + destruct (String.eqb_spec k key) as [->|Hne]; [|by apply IH].
      exfalso. apply Hk. apply list_elem_of_fmap. by exists (key, v).
Qed.

(** The loop of [__init__] never enters a camera twice in [_cams]. *)
Lemma load_refs_NoDup fs path paramfile refs todo cams gammas cams' gammas' :
  load_refs fs path paramfile refs todo cams gammas = Ok (cams', gammas') →
  NoDup (dict_keys cams) → NoDup (dict_keys cams').
Proof.
  revert cams gammas.
  induction todo as [|ref todo IH]; intros cams gammas; simpl.
  - by intros [= <- <-].
  - destruct (String.eqb ref "world"); [apply IH|].
    intros H Hcams.
    apply bind_Ok in H as (r & _ & H); cbv beta in H.
    apply bind_Ok in H as (? & _ & H); cbv beta in H.
    destruct (negb (ref_contains "shutter" r)); [by eapply IH|].
    repeat (apply bind_Ok in H as (? & _ & H); cbv beta in H).
    eapply IH; [done|]. by apply NoDup_dict_set.
Qed.

Lemma loaded_cams_NoDup fs path d :
  __init__ fs path = Ok d → NoDup (dict_keys (_cams d)).
Proof.
  intros Hinit%init_loaded. eapply load_refs_NoDup;
    [apply (loaded_cams _ _ _ Hinit) | apply NoDup_nil_2].
Qed.

(** The loop of [rolling_shutter_speed] over cameras of [_cams]. *)
Lemma rolling_shutter_speed_loop_spec self (entries : list (string * RefParams)) :
  (∀ cam r, (cam, r) ∈ entries → dict_get cam (_cams self) = Ok r) →
  (∀ cam r, (cam, r) ∈ entries → shutter_configured r) →
  (∃ pre cam r post speed,
      entries = (pre ++ (cam, r) :: post)%list ∧
      (∀ cam' r', (cam', r') ∈ pre → ¬ has_rolling_shutter r') ∧
      rolling_camera r speed ∧
      rolling_shutter_speed_loop self (dict_keys entries) = Ok speed)
  ∨ ((∀ cam r, (cam, r) ∈ entries → ¬ has_rolling_shutter r) ∧
     rolling_shutter_speed_loop self (dict_keys entries)
     = Raise (ValueError (NoRollingShutter (_path self)))).
Proof.
  induction entries as [|[cam r] entries IH]; intros Hget Hwf.
  - right. split; [|done]. intros ? ? []%elem_of_nil.
  - simpl. rewrite (Hget cam r) by (apply elem_of_cons; by left).
    destruct (Hwf cam r) as (sh & ty & Hsh & Hty & Hspeed);
      [apply elem_of_cons; by left|].
    simpl. rewrite Hsh. simpl. rewrite Hty. simpl.
    destruct (String.eqb_spec ty "rolling") as [->|Hne].
    + destruct Hspeed as [speed Hspeed]; [done|]. left.
      exists [], cam, r, entries, speed. split; [done|].
      split; [intros ? ? []%elem_of_nil|]. split; [by exists sh|].
      by rewrite Hspeed.
    + assert (¬ has_rolling_shutter r) as Hr.
      { intros (sh' & Hsh' & Hty'). congruence. }
      destruct IH as [(pre & cam' & r' & post & speed & -> & Hpre & Hroll & Hloop)
                     |[Hnone Hloop]].
      * intros ? ? ?. apply Hget, elem_of_cons. by right.
      * intros ? ? ?. eapply Hwf, elem_of_cons. by right.
      * left. exists ((cam, r) :: pre), cam', r', post, speed.
        split; [done|]. split; [|done].
        intros c0 r0 [[= -> ->]|?]%elem_of_cons; [done|by eapply Hpre].
      * right. split; [|done].
        intros c0 r0 [[= -> ->]|?]%elem_of_cons; [done|by eapply Hnone].
Qed.

End Cameras.

(** C8: [rolling_shutter_speed] returns the configured delay between rows of
    a configured camera whose shutter type is ['rolling'] (the first one in
    the order of the camera map), and raises the [ValueError] for a missing
    rolling shutter camera, the NotFound of the design document, when no
    camera is configured with a rolling shutter. *)
Theorem rolling_shutter_speed_spec (fs : Disk) (path : string) (d : Dataset.t) :
  Dataset.__init__ fs path = Ok d →
  (∀ cam r, (cam, r) ∈ Dataset._cams d → shutter_configured r) →
  ((∃ cam r, (cam, r) ∈ Dataset._cams d ∧ has_rolling_shutter r) →
   ∃ pre cam r post speed,
     Dataset._cams d = (pre ++ (cam, r) :: post)%list ∧
     (∀ cam' r', (cam', r') ∈ pre → ¬ has_rolling_shutter r') ∧
     rolling_camera r speed ∧
     Dataset.rolling_shutter_speed d = Ok speed) ∧
  ((∀ cam r, (cam, r) ∈ Dataset._cams d → ¬ has_rolling_shutter r) →
   Dataset.rolling_shutter_speed d
   = Raise (ValueError (NoRollingShutter (Dataset._path d)))).
Proof.
  intros Hinit Hwf. apply loaded_cams_NoDup in Hinit.
  unfold Dataset.rolling_shutter_speed.
  destruct (rolling_shutter_speed_loop_spec d (Dataset._cams d)) as
    [(pre & cam & r & post & speed & Hcams & Hpre & Hroll & Hloop)|[Hnone Hloop]].
  - intros cam r Hin. unfold dict_get. by rewrite (dict_lookup_NoDup cam r).
  - done.
  - split; [intros _; by exists pre, cam, r, post, speed|].
    intros Hnone. exfalso. apply (Hnone cam r).
    + rewrite Hcams. apply elem_of_app. right. apply elem_of_cons. by left.
    + destruct Hroll as (sh & ? & ? & _). by exists sh.
  - split; [|done]. intros (cam & r & Hin & Hroll). by destruct (Hnone cam r).
Qed.

Lemma rolling_shutter_speed_spec_witness :
  Dataset.__init__ Scenario.disk "rec" = Ok Scenario.dataset ∧
  (∀ cam r, (cam, r) ∈ Dataset._cams Scenario.dataset → shutter_configured r) ∧
  ((∃ cam r, (cam, r) ∈ Dataset._cams Scenario.dataset ∧ has_rolling_shutter r) →
   ∃ pre cam r post speed,
     Dataset._cams Scenario.dataset = (pre ++ (cam, r) :: post)%list ∧
     (∀ cam' r', (cam', r') ∈ pre → ¬ has_rolling_shutter r') ∧
     rolling_camera r speed ∧
     Dataset.rolling_shutter_speed Scenario.dataset = Ok speed) ∧
  ((∀ cam r, (cam, r) ∈ Dataset._cams Scenario.dataset → ¬ has_rolling_shutter r) →
   Dataset.rolling_shutter_speed Scenario.dataset
   = Raise (ValueError (NoRollingShutter (Dataset._path Scenario.dataset)))).
Proof.
  assert (∀ cam r, (cam, r) ∈ Dataset._cams Scenario.dataset →
                   shutter_configured r) as Hwf.
  { intros cam r Hin. apply list_elem_of_In in Hin. simpl in Hin.
    destruct Hin as [[= <- <-]|[[= <- <-]|[]]].
    - exists {| sh_type := Some "global"; sh_speed := None |}, "global".
      split; [reflexivity|]. split; [reflexivity|]. discriminate.
    - exists {| sh_type := Some "rolling"; sh_speed := Some 7%Z |}, "rolling".
      split; [reflexivity|]. split; [reflexivity|]. intros _. by exists 7%Z. }
  split; [vm_compute; reflexivity|]. split; [exact Hwf|].
  apply (rolling_shutter_speed_spec Scenario.disk "rec").
  - vm_compute. reflexivity.
  - exact Hwf.
Defined.

(** In the scenario the rolling shutter camera is [cam3]; the record without
    cameras has none. *)
Example scenario_rolling_shutter_speed :
  Dataset.rolling_shutter_speed Scenario.dataset = Ok 7%Z ∧
  Dataset.rolling_shutter_speed Scenario.bare_dataset
  = Raise (ValueError (NoRollingShutter "rec")).
Proof. split; reflexivity. Qed.

(** C10: with no camera configured ([_cams] is empty) [exposure_limits]
    returns [None], without raising; with a camera configured it returns the
    pair of the [min] and [max] exposure of the first camera of [_cams]. *)
Theorem exposure_limits_first_camera (d : Dataset.t) :
  (Dataset._cams d = [] → Dataset.exposure_limits d = Ok None) ∧
  (∀ cam r rest e lo hi,
      Dataset._cams d = (cam, r) :: rest →
      ref_exposure r = Some e → exp_min e = Some lo → exp_max e = Some hi →
      Dataset.exposure_limits d
      = Ok (Some {| Limits.min := lo; Limits.max := hi |})).
Proof.
  unfold Dataset.exposure_limits. split.
  - by intros ->.
  - intros cam r rest e lo hi -> He Hlo Hhi. simpl.
    unfold dict_get. simpl. rewrite String.eqb_refl. simpl.
    rewrite He. simpl. rewrite Hlo. simpl. by rewrite Hhi.
Qed.

Lemma exposure_limits_first_camera_witness :
  Dataset.exposure_limits Scenario.bare_dataset = Ok None ∧
  Dataset.exposure_limits Scenario.dataset
  = Ok (Some {| Limits.min := 1%Z; Limits.max := 20%Z |}).
Proof.
  split.
  - apply (exposure_limits_first_camera Scenario.bare_dataset). reflexivity.
  - apply (proj2 (exposure_limits_first_camera Scenario.dataset)
             "cam1" (Scenario.cam "global" None)
             [("cam3", Scenario.cam "rolling" (Some 7%Z))]
             {| exp_min := Some 1%Z; exp_max := Some 20%Z |}); reflexivity.
Defined.

(** ** More on dictionaries *)

Section Dicts.

Context {V : Type}.
Implicit Types (d : list (string * V)) (k key : string) (v : V).

Lemma dict_lookup_set_eq key v d : dict_lookup key (dict_set key v d) = Some v.
Proof.
  induction d as [|[k w] d IH]; simpl.
  - by rewrite String.eqb_refl.
  - destruct (String.eqb_spec k key) as [->|Hne]; simpl.
    + by rewrite String.eqb_refl.
    + by destruct (String.eqb_spec k key).
Qed.

Lemma dict_lookup_set_ne key k v d :
  key ≠ k → dict_lookup k (dict_set key v d) = dict_lookup k d.
Proof.
  intros Hne. induction d as [|[k' w] d IH]; simpl.
  - by destruct (String.eqb_spec key k).
  - destruct (String.eqb_spec k' key) as [->|Hne']; simpl.
    + by destruct (String.eqb_spec key k).
    + by rewrite IH.
Qed.

Lemma dict_lookup_elem_of key v d : dict_lookup key d = Some v → (key, v) ∈ d.
Proof.
  induction d as [|[k w] d IH]; simpl; [done|].
  destruct (String.eqb_spec k key) as [->|Hne].
  - intros [= ->]. apply elem_of_cons. by left.
  - intros H. apply elem_of_cons. right. by apply IH.
Qed.

Lemma dict_lookup_keys key d : key ∈ dict_keys d ↔ is_Some (dict_lookup key d).
Proof.
  induction d as [|[k w] d IH]; simpl.
  - split; [intros []%elem_of_nil | by intros [? ?]].
  - rewrite elem_of_cons. destruct (String.eqb_spec k key) as [->|Hne].
    + split; [eauto | by left].
    + rewrite IH. split; [by intros [?|?] | by right].
Qed.

Lemma dict_contains_keys key d : dict_contains key d = true ↔ key ∈ dict_keys d.
Proof.
  rewrite dict_lookup_keys. unfold dict_contains.
  destruct (dict_lookup key d); split; eauto; try done; by intros [? ?].
Qed.

Lemma dict_set_fresh key v d :
  key ∉ dict_keys d → dict_set key v d = (d ++ [(key, v)])%list.
Proof.
  induction d as [|[k w] d IH]; simpl; [done|].
  rewrite not_elem_of_cons. intros [Hne Hd].
  destruct (String.eqb_spec k key) as [->|_]; [done|]. by rewrite IH.
Qed.

End Dicts.

(** ** The loop over the references *)

Section References.

Import Dataset.

Lemma ref_contains_transform r :
  ref_contains "transform" r = true ↔ is_Some (ref_transform r).
Proof. unfold ref_contains. simpl. apply bool_decide_eq_true. Qed.

Lemma ref_contains_shutter r :
  ref_contains "shutter" r = true ↔ is_Some (ref_shutter r).
Proof. unfold ref_contains. simpl. apply bool_decide_eq_true. Qed.

Lemma dict_get_Ok {V} key (d : list (string * V)) v :
  dict_get key d = Ok v ↔ dict_lookup key d = Some v.
Proof.
  unfold dict_get. destruct (dict_lookup key d); split; congruence.
Qed.

(** Whether [cam] is entered by a loop over [ref :: todo] or over [todo] is
    the same thing when [ref] is no camera. *)
Lemma entered_skip refs (ref cam : string) (todo : list string) :
  camera_ref refs ref = false →
  bool_decide (cam ∈ ref :: todo) && camera_ref refs cam
  = bool_decide (cam ∈ todo) && camera_ref refs cam.
Proof.
  intros Href. destruct (decide (cam = ref)) as [->|Hne].
  - by rewrite Href, !andb_false_r.
  - f_equal. apply bool_decide_ext. rewrite elem_of_cons.
    split; [by intros [?|?] | by right].
Qed.

(** What a successful run of the loop of [__init__] leaves in [_cams] and
    [_gammas], and what it has checked. *)
Lemma load_refs_Ok fs path paramfile refs todo cams gammas cams' gammas' :
  load_refs fs path paramfile refs todo cams gammas = Ok (cams', gammas') →
  (∀ ref, ref ∈ todo → ref ≠ "world" →
          ∃ r, dict_lookup ref refs = Some r ∧ is_Some (ref_transform r)) ∧
  (∀ cam, dict_lookup cam cams'
          = if bool_decide (cam ∈ todo) && camera_ref refs cam
            then dict_lookup cam refs else dict_lookup cam cams) ∧
  (∀ cam, dict_lookup cam gammas'
          = if bool_decide (cam ∈ todo) && camera_ref refs cam
            then Some (genfromtxt fs
                         (p.join (p.join3 path "params" cam) "gamma.txt"))
            else dict_lookup cam gammas) ∧
  (∀ cam, cam ∈ todo → camera_ref refs cam = true →
          exists_ fs (p.join3 path "params" cam) = true ∧
          exists_ fs (p.join (p.join3 path "params" cam) "gamma.txt") = true ∧
          exists_ fs (p.join (p.join3 path "params" cam) "vignette.png") = true) ∧
  (dict_keys gammas = dict_keys cams → dict_keys gammas' = dict_keys cams').
Proof.
  revert cams gammas. induction todo as [|ref todo IH]; intros cams gammas H.
  { simpl in H. injection H as <- <-.
    split; [|split; [|split; [|split]]]; [| | | |done].
    - intros ? []%elem_of_nil.
    - intros cam. by rewrite bool_decide_eq_false_2 by apply not_elem_of_nil.
    - intros cam. by rewrite bool_decide_eq_false_2 by apply not_elem_of_nil.
    - intros ? []%elem_of_nil. }
  simpl in H. destruct (String.eqb_spec ref "world") as [->|Hworld].
  { assert (camera_ref refs "world" = false) as Hcam.
    { unfold camera_ref, is_camera. by destruct (dict_lookup "world" refs). }
    destruct (IH _ _ H) as (Htr & Hc & Hg & Hf & Hk).
    split; [|split; [|split; [|split]]]; [| | | |done].
    - intros ref [->|?]%elem_of_cons ?; [done|by apply Htr].
    - intros cam. by rewrite entered_skip.
    - intros cam. by rewrite entered_skip.
    - intros cam [->|?]%elem_of_cons ?; [congruence|by apply Hf]. }
  apply bind_Ok in H as (r & Hr%dict_get_Ok & H); cbv beta in H.
  apply bind_Ok in H as (? & Htrans%check_key_Ok%ref_contains_transform & H);
    cbv beta in H.
  destruct (ref_contains "shutter" r) eqn:Hshutter; simpl in H.
  2: { assert (camera_ref refs ref = false) as Hcam.
       { unfold camera_ref, is_camera. rewrite Hr. simpl.
         by rewrite Hshutter, andb_false_r. }
       destruct (IH _ _ H) as (Htr & Hc & Hg & Hf & Hk).
       split; [|split; [|split; [|split]]]; [| | | |done].
       - intros ref' [->|?]%elem_of_cons ?; [eauto|by apply Htr].
       - intros cam. by rewrite entered_skip.
       - intros cam. by rewrite entered_skip.
       - intros cam [->|?]%elem_of_cons ?; [congruence|by apply Hf]. }
  assert (camera_ref refs ref = true) as Hcam.
  { unfold camera_ref, is_camera. rewrite Hr. simpl. rewrite Hshutter.
    by destruct (String.eqb_spec ref "world"). }
  apply bind_Ok in H as (? & Hfolder%check_folder_Ok & H); cbv beta in H.
  apply bind_Ok in H as (? & Hgamma%check_file_Ok & H); cbv beta in H.
  apply bind_Ok in H as (? & Hvignette%check_file_Ok & H); cbv beta in H.
  destruct (IH _ _ H) as (Htr & Hc & Hg & Hf & Hk).
  split; [|split; [|split; [|split]]].
  - intros ref' [->|?]%elem_of_cons ?; [eauto|by apply Htr].
  - intros cam. rewrite Hc. destruct (decide (cam = ref)) as [->|Hne].
    + rewrite Hcam, !andb_true_r, dict_lookup_set_eq, Hr.
      rewrite (bool_decide_eq_true_2 (ref ∈ ref :: todo))
        by (apply elem_of_cons; by left).
      by case_bool_decide.
    + rewrite dict_lookup_set_ne by done.
      replace (bool_decide (cam ∈ ref :: todo)) with (bool_decide (cam ∈ todo));
        [done|].
      apply bool_decide_ext. rewrite elem_of_cons.
      split; [by right | by intros [?|?]].
  - intros cam. rewrite Hg. destruct (decide (cam = ref)) as [->|Hne].
    + rewrite Hcam, !andb_true_r, dict_lookup_set_eq.
      rewrite (bool_decide_eq_true_2 (ref ∈ ref :: todo))
        by (apply elem_of_cons; by left).
      by case_bool_decide.
    + rewrite dict_lookup_set_ne by done.
      replace (bool_decide (cam ∈ ref :: todo)) with (bool_decide (cam ∈ todo));
        [done|].
      apply bool_decide_ext. rewrite elem_of_cons.
      split; [by right | by intros [?|?]].
  - intros cam [->|?]%elem_of_cons ?; [done|by apply Hf].
  - intros Hkeys. apply Hk. rewrite !dict_keys_set, Hkeys. done.
Qed.

End References.

(** ** More on loading *)

Section LoadingMore.

Import Dataset.

Lemma bind_Raise {A B} (m : result A) (f : A → result B) (e : exn) :
  m ≫= f = Raise e → m = Raise e ∨ ∃ a, m = Ok a ∧ f a = Raise e.
Proof. destruct m as [a|e']; [eauto | intros [= ->]; by left]. Qed.

Lemma check_folder_Raise fs folder e :
  _check_folder_exists fs folder = Raise e →
  e = IOError (MissingFolder folder) ∧ exists_ fs folder = false.
Proof.
  unfold _check_folder_exists. destruct (exists_ fs folder); simpl; [done|].
  by intros [= <-].
Qed.

Lemma check_file_Raise fs file e :
  _check_file_exists fs file = Raise e →
  e = IOError (MissingFile file) ∧ exists_ fs file = false.
Proof.
  unfold _check_file_exists. destruct (exists_ fs file); simpl; [done|].
  by intros [= <-].
Qed.

Lemma check_key_Raise file contains key e :
  _check_contains_key file contains key = Raise e →
  e = ValueError (MissingKey key file) ∧ contains key = false.
Proof.
  unfold _check_contains_key. destruct (contains key); simpl; [done|].
  by intros [= <-].
Qed.

Lemma dict_contains_false {V} key (d : list (string * V)) :
  dict_contains key d = false → dict_lookup key d = None.
Proof. unfold dict_contains. by destruct (dict_lookup key d). Qed.

(** The files and folders [__init__] asks for, and its [_time]. *)
Lemma init_layout fs path d :
  __init__ fs path = Ok d →
  Forall (λ file, exists_ fs file = true)
    [p.join (_path d) "data"; p.join (_path d) "frames";
     p.join (_path d) "params";
     p.join3 (_path d) "data" "frames.csv";
     p.join3 (_path d) "data" "imu.csv";
     p.join3 (_path d) "data" "ground_truth.csv";
     p.join3 (_path d) "params" "time.yaml";
     p.join3 (_path d) "params" "params.yaml"] ∧
  dict_lookup "time" (yaml_time fs (p.join3 (_path d) "params" "time.yaml"))
  = Some (_time d).
Proof.
  unfold __init__. cbv zeta. intros H.
  repeat (apply bind_Ok in H as (? & ? & H); cbv beta in H).
  repeat match goal with
         | x : unit |- _ => destruct x
         | x : (_ * _)%type |- _ => destruct x
         | E : _check_folder_exists _ _ = Ok _ |- _ => apply check_folder_Ok in E
         | E : _check_file_exists _ _ = Ok _ |- _ => apply check_file_Ok in E
         | E : dict_get _ _ = Ok _ |- _ => apply dict_get_Ok in E
         end.
  injection H as <-. simpl. split; [|done]. repeat constructor; done.
Qed.

(** The loop of [__init__] fails for what it says. *)
Lemma load_refs_Raise fs path paramfile refs todo cams gammas e :
  load_refs fs path paramfile refs todo cams gammas = Raise e →
  match e with
  | IOError (MissingFolder folder) =>
      exists_ fs folder = false ∧
      ∃ cam, cam ∈ todo ∧ folder = p.join3 path "params" cam
  | IOError (MissingFile file) =>
      exists_ fs file = false ∧
      ∃ cam, cam ∈ todo ∧
             file ∈ [p.join (p.join3 path "params" cam) "gamma.txt";
                     p.join (p.join3 path "params" cam) "vignette.png"]
  | ValueError (MissingKey key file) =>
      key = "transform" ∧ file = paramfile ∧
      ∃ ref r, dict_lookup ref refs = Some r ∧ ref ≠ "world" ∧
               ref_transform r = None
  | _ => True
  end.
Proof.
  revert cams gammas. induction todo as [|ref todo IH]; intros cams gammas H;
    [done|].
  assert (∀ cams' gammas',
            load_refs fs path paramfile refs todo cams' gammas' = Raise e →
            match e with
            | IOError (MissingFolder folder) =>
                exists_ fs folder = false ∧
                ∃ cam, cam ∈ ref :: todo ∧ folder = p.join3 path "params" cam
            | IOError (MissingFile file) =>
                exists_ fs file = false ∧
                ∃ cam, cam ∈ ref :: todo ∧
                       file ∈ [p.join (p.join3 path "params" cam) "gamma.txt";
                               p.join (p.join3 path "params" cam)
                                 "vignette.png"]
            | ValueError (MissingKey key file) =>
                key = "transform" ∧ file = paramfile ∧
                ∃ ref r, dict_lookup ref refs = Some r ∧ ref ≠ "world" ∧
                         ref_transform r = None
            | _ => True
            end) as Hrest.
  { intros cams' gammas' H'. specialize (IH _ _ H').
    destruct e as [[]|[]| |]; try done.
    - destruct IH as (? & cam & ? & ?). split; [done|]. exists cam.
      split; [by apply list_elem_of_further|done].
    - destruct IH as (? & cam & ? & ?). split; [done|]. exists cam.
      split; [by apply list_elem_of_further|done]. }
  simpl in H. destruct (String.eqb_spec ref "world") as [->|Hworld];
    [by eapply Hrest|].
  apply bind_Raise in H as [H|(r & Hr%dict_get_Ok & H)].
  { unfold dict_get in H. destruct (dict_lookup ref refs); [done|].
    by injection H as <-. }
  cbv beta in H.
  apply bind_Raise in H as [[-> Hc]%check_key_Raise|(? & _ & H)].
  { split; [done|]. split; [done|]. exists ref, r.
    split; [done|]. split; [done|].
    destruct (ref_transform r) eqn:E; [|done].
    unfold ref_contains in Hc. simpl in Hc. rewrite E in Hc.
    by rewrite bool_decide_eq_true_2 in Hc. }
  cbv beta in H.
  destruct (negb (ref_contains "shutter" r)); [by eapply Hrest|].
  apply bind_Raise in H as [[-> ?]%check_folder_Raise|(? & _ & H)].
  { split; [done|]. exists ref. split; [apply list_elem_of_here|done]. }
  apply bind_Raise in H as [[-> ?]%check_file_Raise|(? & _ & H)].
  { split; [done|]. exists ref. split; [apply list_elem_of_here|].
    apply list_elem_of_here. }
  apply bind_Raise in H as [[-> ?]%check_file_Raise|(? & _ & H)].
  { split; [done|]. exists ref. split; [apply list_elem_of_here|].
    apply list_elem_of_further, list_elem_of_here. }
  by eapply Hrest.
Qed.

(** The loop of [__init__] enters the cameras in the order of the
    references, when no reference is listed twice. *)
Lemma load_refs_filter fs path paramfile refs
    (todo : list (string * RefParams)) cams gammas cams' gammas' :
  (∀ ref r, (ref, r) ∈ todo → dict_lookup ref refs = Some r) →
  NoDup (dict_keys todo) →
  (∀ ref, ref ∈ dict_keys todo → ref ∉ dict_keys cams) →
  load_refs fs path paramfile refs (dict_keys todo) cams gammas
  = Ok (cams', gammas') →
  cams' = (cams ++ List.filter is_camera todo)%list.
Proof.
  revert cams gammas.
  induction todo as [|[ref r] todo IH]; intros cams gammas Hget Hnd Hfresh H.
  { simpl in H. injection H as <- <-. simpl. by rewrite app_nil_r. }
  simpl in Hnd. apply NoDup_cons in Hnd as [Hnotin Hnd].
  assert (∀ ref' r', (ref', r') ∈ todo → dict_lookup ref' refs = Some r')
    as Hget' by (intros; apply Hget, elem_of_cons; by right).
  assert (∀ ref', ref' ∈ dict_keys todo → ref' ∉ dict_keys cams) as Hfresh'
    by (intros; apply Hfresh; simpl; apply elem_of_cons; by right).
  simpl in H. unfold is_camera at 1. simpl.
  destruct (String.eqb_spec ref "world") as [->|Hworld]; simpl; [by eapply IH|].
  unfold dict_get in H.
  rewrite (Hget ref r) in H by (apply elem_of_cons; by left). simpl in H.
  apply bind_Ok in H as (? & _ & H); cbv beta in H.
  destruct (ref_contains "shutter" r); simpl in H; [|by eapply IH].
  repeat (apply bind_Ok in H as (? & _ & H); cbv beta in H).
  rewrite dict_set_fresh in H
    by (apply Hfresh; simpl; apply elem_of_cons; by left).
  rewrite (IH _ _ Hget' Hnd) with (2 := H).
  - by rewrite <- app_assoc.
  - intros ref' Hin. unfold dict_keys. rewrite map_app. simpl.
    rewrite elem_of_app, list_elem_of_singleton.
    intros [?| ->]; [by eapply Hfresh'|done].
Qed.

End LoadingMore.

(** ** What the code shows beyond the design document *)

(** X1: a record that loads has its three folders, its three record files,
    [params/time.yaml] and [params/params.yaml] on the disk. *)
Theorem loaded_layout_exists (fs : Disk) (path : string) (d : Dataset.t) :
  Dataset.__init__ fs path = Ok d →
  Forall (λ file, exists_ fs file = true)
    [p.join (Dataset._path d) "data"; p.join (Dataset._path d) "frames";
     p.join (Dataset._path d) "params";
     p.join3 (Dataset._path d) "data" "frames.csv";
     p.join3 (Dataset._path d) "data" "imu.csv";
     p.join3 (Dataset._path d) "data" "ground_truth.csv";
     p.join3 (Dataset._path d) "params" "time.yaml";
     p.join3 (Dataset._path d) "params" "params.yaml"].
Proof. intros H. by apply init_layout in H as [H _]. Qed.

Lemma loaded_layout_exists_witness :
  Dataset.__init__ Scenario.disk "rec" = Ok Scenario.dataset ∧
  Forall (λ file, exists_ Scenario.disk file = true)
    [p.join (Dataset._path Scenario.dataset) "data";
     p.join (Dataset._path Scenario.dataset) "frames";
     p.join (Dataset._path Scenario.dataset) "params";
     p.join3 (Dataset._path Scenario.dataset) "data" "frames.csv";
     p.join3 (Dataset._path Scenario.dataset) "data" "imu.csv";
     p.join3 (Dataset._path Scenario.dataset) "data" "ground_truth.csv";
     p.join3 (Dataset._path Scenario.dataset) "params" "time.yaml";
     p.join3 (Dataset._path Scenario.dataset) "params" "params.yaml"].
Proof.
  split; [vm_compute; reflexivity|].
  apply (loaded_layout_exists Scenario.disk "rec"). vm_compute. reflexivity.
Defined.

(** X2: on a record that loads, [start], [end] and [duration] raise nothing:
    they return the three entries of the [time] dictionary of
    [params/time.yaml]. *)
Theorem loaded_bounds_defined (fs : Disk) (path : string) (d : Dataset.t) :
  Dataset.__init__ fs path = Ok d →
  ∃ (time : list (string * Z)) (s e du : Z),
    dict_lookup "time"
      (yaml_time fs (p.join3 (Dataset._path d) "params" "time.yaml"))
    = Some time ∧
    dict_lookup "start" time = Some s ∧ Dataset.start d = Ok s ∧
    dict_lookup "end" time = Some e ∧ Dataset.end_ d = Ok e ∧
    dict_lookup "duration" time = Some du ∧ Dataset.duration d = Ok du.
Proof.
  intros H. pose proof (init_layout _ _ _ H) as [_ Htime].
  apply init_loaded in H. destruct (loaded_time _ _ _ H) as (Hs & He & Hd).
  apply dict_contains_keys, dict_lookup_keys in Hs as [s Hs], He as [e He],
    Hd as [du Hd].
  exists (Dataset._time d), s, e, du.
  unfold Dataset.start, Dataset.end_, Dataset.duration, dict_get.
  by rewrite Hs, He, Hd.
Qed.

Lemma loaded_bounds_defined_witness :
  Dataset.__init__ Scenario.disk "rec" = Ok Scenario.dataset ∧
  ∃ (time : list (string * Z)) (s e du : Z),
    dict_lookup "time"
      (yaml_time Scenario.disk
         (p.join3 (Dataset._path Scenario.dataset) "params" "time.yaml"))
    = Some time ∧
    dict_lookup "start" time = Some s ∧ Dataset.start Scenario.dataset = Ok s ∧
    dict_lookup "end" time = Some e ∧ Dataset.end_ Scenario.dataset = Ok e ∧
    dict_lookup "duration" time = Some du ∧
    Dataset.duration Scenario.dataset = Ok du.
Proof.
  split; [vm_compute; reflexivity|].
  apply (loaded_bounds_defined Scenario.disk "rec"). vm_compute. reflexivity.
Defined.

(** X3: when [params.yaml] lists no reference twice, the camera map [_cams]
    of a record that loads is the list of its references other than ['world']
    that have a ['shutter'] key, in the order of [params.yaml]. *)
Theorem cameras_in_reference_order (fs : Disk) (path : string) (d : Dataset.t) :
  Dataset.__init__ fs path = Ok d →
  NoDup (dict_keys (Dataset._refs d)) →
  Dataset._cams d = List.filter is_camera (Dataset._refs d).
Proof.
  intros H%init_loaded Hnd.
  eapply (load_refs_filter _ _ _ _ _ [] []); [| |intros ref _|].
  - intros ref r. by apply dict_lookup_NoDup.
  - done.
  - apply not_elem_of_nil.
  - apply (loaded_cams _ _ _ H).
Qed.

Lemma cameras_in_reference_order_witness :
  Dataset.__init__ Scenario.disk "rec" = Ok Scenario.dataset ∧
  NoDup (dict_keys (Dataset._refs Scenario.dataset)) ∧
  Dataset._cams Scenario.dataset
  = List.filter is_camera (Dataset._refs Scenario.dataset).
Proof.
  assert (NoDup (dict_keys (Dataset._refs Scenario.dataset))) as Hnd.
  { apply (bool_decide_unpack _). vm_compute. exact I. }
  split; [vm_compute; reflexivity|]. split; [exact Hnd|].
  apply (cameras_in_reference_order Scenario.disk "rec");
    [vm_compute; reflexivity | exact Hnd].
Defined.

(** X4: in a record that loads, [_cams[cam]] is [r] exactly when [cam] is
    not ['world'] and [_refs[cam]] is [r] and has a ['shutter'] key; such a
    camera also has a ['transform'] key. *)
Theorem camera_map_lookup (fs : Disk) (path : string) (d : Dataset.t) :
  Dataset.__init__ fs path = Ok d →
  ∀ (cam : string) (r : RefParams),
    (dict_lookup cam (Dataset._cams d) = Some r ↔
     cam ≠ "world" ∧ dict_lookup cam (Dataset._refs d) = Some r ∧
     is_Some (ref_shutter r)) ∧
    (dict_lookup cam (Dataset._cams d) = Some r → is_Some (ref_transform r)).
Proof.
  intros H%init_loaded cam r.
  destruct (load_refs_Ok _ _ _ _ _ _ _ _ _ (loaded_cams _ _ _ H))
    as (Htr & Hc & _).
  assert (dict_lookup cam (Dataset._cams d) = Some r ↔
          cam ≠ "world" ∧ dict_lookup cam (Dataset._refs d) = Some r ∧
          is_Some (ref_shutter r)) as Hiff.
  { rewrite Hc. unfold camera_ref, is_camera.
    destruct (dict_lookup cam (Dataset._refs d)) as [r'|] eqn:Hr; simpl.
    - rewrite bool_decide_eq_true_2
        by (apply dict_lookup_keys; by rewrite Hr).
      simpl. destruct (String.eqb_spec cam "world") as [->|Hne]; simpl.
      + split; [done|]. by intros [? _].
      + destruct (ref_contains "shutter" r') eqn:Hsh.
        * split; [intros [= <-]|by intros (_ & ? & _)].
          split; [done|]. split; [done|]. by apply ref_contains_shutter.
        * split; [done|]. intros (_ & [= <-] & Hs%ref_contains_shutter).
          congruence.
    - rewrite andb_false_r. simpl. split; [done|]. by intros (_ & ? & _). }
  split; [done|]. intros (Hne & Hr & _)%Hiff.
  destruct (Htr cam) as (r' & Hr' & Ht); [|done|congruence].
  apply dict_lookup_keys. by rewrite Hr.
Qed.

Lemma camera_map_lookup_witness :
  Dataset.__init__ Scenario.disk "rec" = Ok Scenario.dataset ∧
  ∀ (cam : string) (r : RefParams),
    (dict_lookup cam (Dataset._cams Scenario.dataset) = Some r ↔
     cam ≠ "world" ∧ dict_lookup cam (Dataset._refs Scenario.dataset) = Some r ∧
     is_Some (ref_shutter r)) ∧
    (dict_lookup cam (Dataset._cams Scenario.dataset) = Some r →
     is_Some (ref_transform r)).
Proof.
  split; [vm_compute; reflexivity|].
  apply (camera_map_lookup Scenario.disk "rec"). vm_compute. reflexivity.
Defined.

(** X5: in a record that loads, every reference of [params.yaml] other than
    ['world'] has a ['transform'] key. *)
Theorem references_have_transform (fs : Disk) (path : string) (d : Dataset.t) :
  Dataset.__init__ fs path = Ok d →
  ∀ ref : string,
    ref ∈ dict_keys (Dataset._refs d) → ref ≠ "world" →
    ∃ r, dict_lookup ref (Dataset._refs d) = Some r ∧
         is_Some (ref_transform r).
Proof.
  intros H%init_loaded.
  by destruct (load_refs_Ok _ _ _ _ _ _ _ _ _ (loaded_cams _ _ _ H))
    as (Htr & _).
Qed.

Lemma references_have_transform_witness :
  Dataset.__init__ Scenario.disk "rec" = Ok Scenario.dataset ∧
  ∀ ref : string,
    ref ∈ dict_keys (Dataset._refs Scenario.dataset) → ref ≠ "world" →
    ∃ r, dict_lookup ref (Dataset._refs Scenario.dataset) = Some r ∧
         is_Some (ref_transform r).
Proof.
  split; [vm_compute; reflexivity|].
  apply (references_have_transform Scenario.disk "rec").
  vm_compute. reflexivity.
Defined.

(** What loading leaves for each camera: its folder and files, and its gamma
    table. *)
Lemma loaded_camera_files (fs : Disk) (path : string) (d : Dataset.t) :
  Dataset.__init__ fs path = Ok d →
  dict_keys (Dataset._gammas d) = dict_keys (Dataset._cams d) ∧
  ∀ cam : string,
    cam ∈ dict_keys (Dataset._cams d) →
    exists_ fs (camera_folder d cam) = true ∧
    exists_ fs (p.join (camera_folder d cam) "gamma.txt") = true ∧
    exists_ fs (p.join (camera_folder d cam) "vignette.png") = true ∧
    dict_lookup cam (Dataset._gammas d)
    = Some (genfromtxt fs (p.join (camera_folder d cam) "gamma.txt")).
Proof.
  intros H%init_loaded.
  destruct (load_refs_Ok _ _ _ _ _ _ _ _ _ (loaded_cams _ _ _ H))
    as (_ & Hc & Hg & Hf & Hk).
  split; [by apply Hk|]. intros cam [r Hr]%dict_lookup_keys.
  rewrite Hc in Hr. specialize (Hg cam). unfold camera_folder.
  destruct (bool_decide (cam ∈ dict_keys (Dataset._refs d))) eqn:Hin;
    [|done].
  destruct (camera_ref (Dataset._refs d) cam) eqn:Hcam; [|done].
  apply bool_decide_eq_true in Hin.
  destruct (Hf cam Hin Hcam) as (? & ? & ?). done.
Qed.

(** X6: in a record that loads, [_gammas] has the keys of [_cams], in the
    same order; for each camera its folder under [params], its [gamma.txt]
    and its [vignette.png] are on the disk, and its entry of [_gammas] is
    its [gamma.txt] as parsed. *)
Theorem camera_gamma_tables (fs : Disk) (path : string) (d : Dataset.t) :
  Dataset.__init__ fs path = Ok d →
  dict_keys (Dataset._gammas d) = dict_keys (Dataset._cams d) ∧
  ∀ cam : string,
    cam ∈ dict_keys (Dataset._cams d) →
    exists_ fs (camera_folder d cam) = true ∧
    exists_ fs (p.join (camera_folder d cam) "gamma.txt") = true ∧
    exists_ fs (p.join (camera_folder d cam) "vignette.png") = true ∧
    dict_lookup cam (Dataset._gammas d)
    = Some (genfromtxt fs (p.join (camera_folder d cam) "gamma.txt")).
Proof. apply loaded_camera_files. Qed.

Lemma camera_gamma_tables_witness :
  Dataset.__init__ Scenario.disk "rec" = Ok Scenario.dataset ∧
  dict_keys (Dataset._gammas Scenario.dataset)
  = dict_keys (Dataset._cams Scenario.dataset) ∧
  ∀ cam : string,
    cam ∈ dict_keys (Dataset._cams Scenario.dataset) →
    exists_ Scenario.disk (camera_folder Scenario.dataset cam) = true ∧
    exists_ Scenario.disk
      (p.join (camera_folder Scenario.dataset cam) "gamma.txt") = true ∧
    exists_ Scenario.disk
      (p.join (camera_folder Scenario.dataset cam) "vignette.png") = true ∧
    dict_lookup cam (Dataset._gammas Scenario.dataset)
    = Some (genfromtxt Scenario.disk
              (p.join (camera_folder Scenario.dataset cam) "gamma.txt")).
Proof.
  split; [vm_compute; reflexivity|].
  apply (camera_gamma_tables Scenario.disk "rec"). vm_compute. reflexivity.
Defined.

(** X7: what [__init__] raises by its own checks is true to the disk: its
    [IOError] names a path that does not exist, which is a folder or a file
    of the record or of one of the references of [params.yaml]; its
    [ValueError] names, with [time.yaml], a key among ['start'], ['end'] and
    ['duration'] that the [time] dictionary lacks, or, with [params.yaml],
    the key ['transform'] that a reference other than ['world'] lacks. *)
Theorem load_errors_are_truthful (fs : Disk) (path : string) (e : exn) :
  Dataset.__init__ fs path = Raise e → load_error fs path e.
Proof.
  unfold Dataset.__init__, load_error. cbv zeta. intros H.
  apply bind_Raise in H as [[-> ?]%check_folder_Raise|(? & _ & H)];
    [split; [done|]; left; apply list_elem_of_here|cbv beta in H].
  apply bind_Raise in H as [[-> ?]%check_folder_Raise|(? & _ & H)];
    [split; [done|]; left; apply list_elem_of_further, list_elem_of_here
    |cbv beta in H].
  apply bind_Raise in H as [[-> ?]%check_folder_Raise|(? & _ & H)];
    [split; [done|]; left;
     do 2 apply list_elem_of_further; apply list_elem_of_here
    |cbv beta in H].
  apply bind_Raise in H as [[-> ?]%check_file_Raise|(? & _ & H)];
    [split; [done|]; left; apply list_elem_of_here|cbv beta in H].
  apply bind_Raise in H as [[-> ?]%check_file_Raise|(? & _ & H)];
    [split; [done|]; left; apply list_elem_of_further, list_elem_of_here
    |cbv beta in H].
  apply bind_Raise in H as [[-> ?]%check_file_Raise|(? & _ & H)];
    [split; [done|]; left;
     do 2 apply list_elem_of_further; apply list_elem_of_here
    |cbv beta in H].
  do 3 (apply bind_Raise in H as [H|(? & _ & H)];
        [match type of H with col0 ?a = _ =>
           destruct a as [cells|rows]; simpl in H; [|done];
           by injection H as <-
         end
        |cbv beta in H]).
  apply bind_Raise in H as [[-> ?]%check_file_Raise|(? & _ & H)];
    [split; [done|]; left;
     do 3 apply list_elem_of_further; apply list_elem_of_here
    |cbv beta in H].
  apply bind_Raise in H as [H|(time & Htime%dict_get_Ok & H)].
  { unfold dict_get in H. destruct (dict_lookup "time" _); [done|].
    by injection H as <-. }
  cbv beta in H.
  apply bind_Raise in H as [[-> Hc%dict_contains_false]%check_key_Raise
                           |(? & _ & H)];
    [left; split; [done|]; split; [apply list_elem_of_here|eauto]
    |cbv beta in H].
  apply bind_Raise in H as [[-> Hc%dict_contains_false]%check_key_Raise
                           |(? & _ & H)];
    [left; split; [done|];
     split; [apply list_elem_of_further, list_elem_of_here|eauto]
    |cbv beta in H].
  apply bind_Raise in H as [[-> Hc%dict_contains_false]%check_key_Raise
                           |(? & _ & H)];
    [left; split; [done|];
     split; [do 2 apply list_elem_of_further; apply list_elem_of_here|eauto]
    |cbv beta in H].
  apply bind_Raise in H as [[-> ?]%check_file_Raise|(? & _ & H)];
    [split; [done|]; left;
     do 4 apply list_elem_of_further; apply list_elem_of_here
    |cbv beta in H].
  apply bind_Raise in H as [H|([cams gammas] & _ & H)]; [|done].
  apply load_refs_Raise in H.
  destruct e as [[]|[]| |]; try done.
  - destruct H as (? & cam & ? & ->). split; [done|]. right. by exists cam.
  - destruct H as (? & cam & ? & ?). split; [done|]. right. by exists cam.
  - destruct H as (-> & -> & ?). by right.
Qed.

Lemma load_errors_are_truthful_witness :
  Dataset.__init__ Scenario.dataless_disk "rec"
  = Raise (IOError (MissingFolder "rec/data")) ∧
  load_error Scenario.dataless_disk "rec" (IOError (MissingFolder "rec/data")).
Proof.
  split; [vm_compute; reflexivity|].
  apply (load_errors_are_truthful Scenario.dataless_disk "rec").
  vm_compute. reflexivity.
Defined.

(** ** Gamma tables and vignettes *)

Section Gamma.

Local Open Scope Q_scope.

Lemma less_spec (a b : Q) : Dataset.less a b = true ↔ a < b.
Proof.
  unfold Dataset.less. rewrite negb_true_iff, <- not_true_iff_false.
  rewrite Qle_bool_iff. split; [apply Qnot_le_lt | apply Qlt_not_le].
Qed.

Lemma less_false (a b : Q) : Dataset.less a b = false ↔ b <= a.
Proof.
  unfold Dataset.less. rewrite negb_false_iff. apply Qle_bool_iff.
Qed.

(** An input that [gamma] accepts rounds to an index of 0 .. 255. *)
Lemma round_bounds (x : Q) :
  0 <= x → x <= 255 → (0 ≤ Dataset.round x ≤ 255)%Z.
Proof.
  intros H0 H255. unfold Dataset.round.
  pose proof (Qfloor_le x) as Hle. pose proof (Qlt_floor x) as Hlt.
  assert (0 ≤ Qfloor x)%Z as Hf0.
  { change 0%Z with (Qfloor 0). by apply Qfloor_resp_le. }
  assert (Qfloor x ≤ 255)%Z as Hf255.
  { change 255%Z with (Qfloor 255). by apply Qfloor_resp_le. }
  destruct (Qcompare_spec (x - inject_Z (Qfloor x)) (1 # 2)) as [He|Hl|Hg].
  - destruct (Z.even (Qfloor x)); [lia|].
    destruct (decide (Qfloor x = 255%Z)) as [E|]; [|lia].
    rewrite E in He. change (inject_Z 255) with 255 in He. exfalso. lra.
  - lia.
  - destruct (decide (Qfloor x = 255%Z)) as [E|]; [|lia].
    rewrite E in Hg. change (inject_Z 255) with 255 in Hg. exfalso. lra.
Qed.

Lemma position_in_range (n : nat) (i : Z) :
  (0 ≤ i < Z.of_nat n)%Z → position n i = Some (Z.to_nat i).
Proof.
  intros [H0 Hn]. unfold position.
  destruct (Z.leb_spec 0 i); [|lia]. by destruct (Z.ltb_spec i (Z.of_nat n)); [|lia].
Qed.

End Gamma.

(** X8: [gamma] rejects an unknown camera with its [ValueError], whatever
    the input, and for a known camera rejects every input below 0 or above
    255 with the [ValueError] of the domain. *)
Theorem gamma_rejections (d : Dataset.t) (cam : string) (input : Q) :
  (cam ∉ dict_keys (Dataset._cams d) →
   Dataset.gamma d cam input
   = Dataset.Gamma (Raise (ValueError (UnknownCamera cam)))) ∧
  (cam ∈ dict_keys (Dataset._cams d) → (input < 0 ∨ 255 < input)%Q →
   Dataset.gamma d cam input = Dataset.GammaDomainError input).
Proof.
  unfold Dataset.gamma. split.
  - intros Hcam. rewrite <- dict_contains_keys in Hcam.
    by destruct (dict_contains cam (Dataset._cams d)).
  - intros Hcam%dict_contains_keys Hin. rewrite Hcam. simpl.
    destruct Hin as [Hin%less_spec|Hin%less_spec]; rewrite Hin; [done|].
    by rewrite orb_true_r.
Qed.

Lemma gamma_rejections_witness :
  Dataset.gamma Scenario.gamma_dataset "cam2" (300 # 1)
  = Dataset.Gamma (Raise (ValueError (UnknownCamera "cam2"))) ∧
  Dataset.gamma Scenario.gamma_dataset "cam1" (2551 # 10)
  = Dataset.GammaDomainError (2551 # 10).
Proof.
  split.
  - apply (gamma_rejections Scenario.gamma_dataset "cam2" (300 # 1)).
    intros Hin%list_elem_of_In. simpl in Hin.
    destruct Hin as [[=]|[[=]|[]]].
  - apply (gamma_rejections Scenario.gamma_dataset "cam1" (2551 # 10)).
    + apply list_elem_of_In. simpl. tauto.
    + right. reflexivity.
Defined.

(** X9: on a record that loads, [gamma] of a camera of [_cams] and an input
    of 0 .. 255 raises no [KeyError]: it indexes the parsed [gamma.txt] of
    the camera at the input rounded to the nearest integer, which lies in
    0 .. 255; with a table of 256 numbers it returns that entry. *)
Theorem gamma_lookup
    (fs : Disk) (path : string) (d : Dataset.t) (cam : string) (input : Q) :
  Dataset.__init__ fs path = Ok d →
  cam ∈ dict_keys (Dataset._cams d) →
  (0 <= input)%Q → (input <= 255)%Q →
  Dataset.gamma d cam input
  = Dataset.Gamma
      (getitem (genfromtxt fs (p.join (camera_folder d cam) "gamma.txt"))
         (Dataset.round input)) ∧
  (0 ≤ Dataset.round input ≤ 255)%Z ∧
  ∀ cells : list Z,
    genfromtxt fs (p.join (camera_folder d cam) "gamma.txt") = Arr1 cells →
    length cells = 256%nat →
    ∃ v, cells !! Z.to_nat (Dataset.round input) = Some v ∧
         Dataset.gamma d cam input = Dataset.Gamma (Ok (Number v)).
Proof.
  intros Hinit Hcam H0 H255.
  destruct (loaded_camera_files _ _ _ Hinit) as [_ Hfiles].
  destruct (Hfiles cam Hcam) as (_ & _ & _ & Htable).
  pose proof (round_bounds input H0 H255) as Hround.
  assert (Dataset.gamma d cam input
          = Dataset.Gamma
              (getitem (genfromtxt fs (p.join (camera_folder d cam) "gamma.txt"))
                 (Dataset.round input))) as Hgamma.
  { unfold Dataset.gamma. apply dict_contains_keys in Hcam. rewrite Hcam. simpl.
    apply less_false in H0, H255. rewrite H0, H255. simpl.
    unfold dict_get. by rewrite Htable. }
  split; [done|]. split; [done|]. intros cells Hcells Hlen.
  rewrite Hgamma, Hcells. simpl.
  rewrite position_in_range by lia.
  destruct (lookup_lt_is_Some_2 cells (Z.to_nat (Dataset.round input)))
    as [v Hv]; [lia|].
  exists v. by rewrite Hv.
Qed.

Lemma gamma_lookup_witness :
  Dataset.__init__ Scenario.gamma_disk "rec" = Ok Scenario.gamma_dataset ∧
  "cam3" ∈ dict_keys (Dataset._cams Scenario.gamma_dataset) ∧
  (0 <= 5 # 2)%Q ∧ (5 # 2 <= 255)%Q ∧
  Dataset.gamma Scenario.gamma_dataset "cam3" (5 # 2)
  = Dataset.Gamma
      (getitem (genfromtxt Scenario.gamma_disk
                  (p.join (camera_folder Scenario.gamma_dataset "cam3")
                     "gamma.txt"))
         (Dataset.round (5 # 2))) ∧
  (0 ≤ Dataset.round (5 # 2) ≤ 255)%Z ∧
  ∀ cells : list Z,
    genfromtxt Scenario.gamma_disk
      (p.join (camera_folder Scenario.gamma_dataset "cam3") "gamma.txt")
    = Arr1 cells →
    length cells = 256%nat →
    ∃ v, cells !! Z.to_nat (Dataset.round (5 # 2)) = Some v ∧
         Dataset.gamma Scenario.gamma_dataset "cam3" (5 # 2)
         = Dataset.Gamma (Ok (Number v)).
Proof.
  assert ("cam3" ∈ dict_keys (Dataset._cams Scenario.gamma_dataset)) as Hcam
    by (apply list_elem_of_In; simpl; tauto).
  assert (0 <= 5 # 2)%Q as H0 by (by vm_compute).
  assert (5 # 2 <= 255)%Q as H255 by (by vm_compute).
  split; [vm_compute; reflexivity|]. split; [exact Hcam|].
  split; [exact H0|]. split; [exact H255|].
  apply (gamma_lookup Scenario.gamma_disk "rec");
    [vm_compute; reflexivity | exact Hcam | exact H0 | exact H255].
Defined.

(** In the scenario with gamma tables, the input 2.5 rounds to the even 2 and
    the input 3.5 to 4. *)
Example scenario_gamma :
  Dataset.gamma Scenario.gamma_dataset "cam3" (5 # 2)
  = Dataset.Gamma (Ok (Number 4)) ∧
  Dataset.gamma Scenario.gamma_dataset "cam3" (7 # 2)
  = Dataset.Gamma (Ok (Number 8)) ∧
  Dataset.gamma Scenario.gamma_dataset "cam3" 255
  = Dataset.Gamma (Ok (Number 510)).
Proof. repeat split; vm_compute; reflexivity. Qed.

(** X10: on a record that loads, [vignette] of a camera of [_cams] reads
    [params/<cam>/vignette.png], a file that is on the disk; for any other
    name it raises the [ValueError] of the unknown camera and reads
    nothing. *)
Theorem vignette_reads_checked_file
    {Image : Type} (imread : string → Image)
    (fs : Disk) (path : string) (d : Dataset.t) (cam : string) :
  Dataset.__init__ fs path = Ok d →
  (cam ∈ dict_keys (Dataset._cams d) →
   exists_ fs (p.join (camera_folder d cam) "vignette.png") = true ∧
   Dataset.vignette imread d cam
   = Ok (imread (p.join (camera_folder d cam) "vignette.png"))) ∧
  (cam ∉ dict_keys (Dataset._cams d) →
   Dataset.vignette imread d cam = Raise (ValueError (UnknownCamera cam))).
Proof.
  intros Hinit. destruct (loaded_camera_files _ _ _ Hinit) as [_ Hfiles].
  unfold Dataset.vignette. split.
  - intros Hcam. destruct (Hfiles cam Hcam) as (_ & _ & Hv & _).
    apply dict_contains_keys in Hcam. by rewrite Hcam.
  - intros Hcam. rewrite <- dict_contains_keys in Hcam.
    by destruct (dict_contains cam (Dataset._cams d)).
Qed.

Lemma vignette_reads_checked_file_witness :
  Dataset.__init__ Scenario.disk "rec" = Ok Scenario.dataset ∧
  ("cam1" ∈ dict_keys (Dataset._cams Scenario.dataset) →
   exists_ Scenario.disk
     (p.join (camera_folder Scenario.dataset "cam1") "vignette.png") = true ∧
   Dataset.vignette (λ file, file) Scenario.dataset "cam1"
   = Ok (p.join (camera_folder Scenario.dataset "cam1") "vignette.png")) ∧
  ("cam1" ∉ dict_keys (Dataset._cams Scenario.dataset) →
   Dataset.vignette (λ file, file) Scenario.dataset "cam1"
   = Raise (ValueError (UnknownCamera "cam1"))).
Proof.
  split; [vm_compute; reflexivity|].
  apply (vignette_reads_checked_file (λ file, file) Scenario.disk "rec").
  vm_compute. reflexivity.
Defined.

(** ** Incomplete camera entries *)

(** X11: [exposure_limits] reads the first camera of [_cams] only: when it
    has no ['exposure'] key, or its exposure has no ['min'], or has ['min']
    and no ['max'], the [KeyError] of that key is raised, whatever the other
    cameras hold; and two datasets whose camera maps begin with the same
    entry have the same limits. *)
Theorem exposure_limits_first_camera_only
    (d : Dataset.t) (cam : string) (r : RefParams)
    (rest : list (string * RefParams)) :
  Dataset._cams d = (cam, r) :: rest →
  (ref_exposure r = None →
   Dataset.exposure_limits d = Raise (KeyError "exposure")) ∧
  (∀ e, ref_exposure r = Some e → exp_min e = None →
        Dataset.exposure_limits d = Raise (KeyError "min")) ∧
  (∀ e lo, ref_exposure r = Some e → exp_min e = Some lo → exp_max e = None →
           Dataset.exposure_limits d = Raise (KeyError "max")) ∧
  (∀ d' rest', Dataset._cams d' = (cam, r) :: rest' →
               Dataset.exposure_limits d' = Dataset.exposure_limits d).
Proof.
  intros Hcams. unfold Dataset.exposure_limits. rewrite Hcams. simpl.
  unfold dict_get. simpl. rewrite String.eqb_refl. simpl.
  split; [by intros ->|]. split.
  { intros e He Hmin. rewrite He. simpl. by rewrite Hmin. }
  split.
  { intros e lo He Hmin Hmax. rewrite He. simpl. rewrite Hmin. simpl.
    by rewrite Hmax. }
  intros d' rest' ->. simpl. by rewrite String.eqb_refl.
Qed.

Lemma exposure_limits_first_camera_only_witness :
  Dataset._cams Scenario.dataset
  = ("cam1", Scenario.cam "global" None)
      :: [("cam3", Scenario.cam "rolling" (Some 7%Z))] ∧
  (ref_exposure (Scenario.cam "global" None) = None →
   Dataset.exposure_limits Scenario.dataset = Raise (KeyError "exposure")) ∧
  (∀ e, ref_exposure (Scenario.cam "global" None) = Some e →
        exp_min e = None →
        Dataset.exposure_limits Scenario.dataset = Raise (KeyError "min")) ∧
  (∀ e lo, ref_exposure (Scenario.cam "global" None) = Some e →
           exp_min e = Some lo → exp_max e = None →
           Dataset.exposure_limits Scenario.dataset = Raise (KeyError "max")) ∧
  (∀ d' rest',
      Dataset._cams d' = ("cam1", Scenario.cam "global" None) :: rest' →
      Dataset.exposure_limits d'
      = Dataset.exposure_limits Scenario.dataset).
Proof.
  split; [reflexivity|].
  apply (exposure_limits_first_camera_only Scenario.dataset "cam1"
           (Scenario.cam "global" None)
           [("cam3", Scenario.cam "rolling" (Some 7%Z))]).
  reflexivity.
Defined.

Section RollingMore.

Import Dataset.

(** The loop of [rolling_shutter_speed] passes the cameras whose shutter has
    a type other than ['rolling']. *)
Lemma rolling_shutter_speed_loop_skip self
    (pre : list (string * RefParams)) (todo : list string) :
  (∀ cam r, (cam, r) ∈ pre → dict_get cam (_cams self) = Ok r) →
  (∀ cam r, (cam, r) ∈ pre →
            shutter_configured r ∧ ¬ has_rolling_shutter r) →
  rolling_shutter_speed_loop self (dict_keys pre ++ todo)
  = rolling_shutter_speed_loop self todo.
Proof.
  induction pre as [|[cam r] pre IH]; intros Hget Hpre; [done|].
  simpl. rewrite (Hget cam r) by (apply elem_of_cons; by left).
  destruct (Hpre cam r) as [(sh & ty & Hsh & Hty & _) Hnot];
    [apply elem_of_cons; by left|].
  simpl. rewrite Hsh. simpl. rewrite Hty. simpl.
  destruct (String.eqb_spec ty "rolling") as [->|_].
  { destruct Hnot. by exists sh. }
  apply IH; intros cam' r' Hin; [apply Hget|apply (Hpre cam' r')];
    apply elem_of_cons; by right.
Qed.

End RollingMore.

(** X12: on a record that loads, [rolling_shutter_speed] is decided by the
    first camera of [_cams] that is not a complete camera of another shutter
    type: if its shutter has no ['type'] the [KeyError] of ['type'] is
    raised; if its type is ['rolling'] its ['speed'] is returned, or the
    [KeyError] of ['speed'] raised when it has none, and no later camera is
    tried. *)
Theorem rolling_shutter_speed_first_decides
    (fs : Disk) (path : string) (d : Dataset.t)
    (pre post : list (string * RefParams)) (cam : string) (r : RefParams)
    (sh : ShutterParams) :
  Dataset.__init__ fs path = Ok d →
  Dataset._cams d = (pre ++ (cam, r) :: post)%list →
  (∀ cam' r', (cam', r') ∈ pre →
              shutter_configured r' ∧ ¬ has_rolling_shutter r') →
  ref_shutter r = Some sh →
  (sh_type sh = None →
   Dataset.rolling_shutter_speed d = Raise (KeyError "type")) ∧
  (sh_type sh = Some "rolling" →
   Dataset.rolling_shutter_speed d = Dataset.item "speed" (sh_speed sh)).
Proof.
  intros Hnd%loaded_cams_NoDup Hcams Hpre Hsh.
  assert (∀ cam' r', (cam', r') ∈ Dataset._cams d →
                     dict_get cam' (Dataset._cams d) = Ok r') as Hget.
  { intros cam' r' Hin. unfold dict_get.
    by rewrite (dict_lookup_NoDup cam' r'). }
  unfold Dataset.rolling_shutter_speed.
  assert (dict_keys (Dataset._cams d)
          = (dict_keys pre ++ cam :: dict_keys post)%list) as ->.
  { rewrite Hcams. unfold dict_keys. by rewrite map_app. }
  rewrite rolling_shutter_speed_loop_skip; [|intros cam' r' Hin|done].
  2: { apply Hget. rewrite Hcams. apply elem_of_app. by left. }
  simpl. rewrite (Hget cam r)
    by (rewrite Hcams; apply elem_of_app; right; apply elem_of_cons; by left).
  simpl. rewrite Hsh. simpl. split; intros ->; done.
Qed.

Lemma rolling_shutter_speed_first_decides_witness :
  Dataset.__init__ Scenario.disk "rec" = Ok Scenario.dataset ∧
  (sh_type {| sh_type := Some "rolling"; sh_speed := Some 7%Z |} = None →
   Dataset.rolling_shutter_speed Scenario.dataset = Raise (KeyError "type")) ∧
  (sh_type {| sh_type := Some "rolling"; sh_speed := Some 7%Z |}
   = Some "rolling" →
   Dataset.rolling_shutter_speed Scenario.dataset
   = Dataset.item "speed"
       (sh_speed {| sh_type := Some "rolling"; sh_speed := Some 7%Z |})).
Proof.
  split; [vm_compute; reflexivity|].
  apply (rolling_shutter_speed_first_decides Scenario.disk "rec"
           Scenario.dataset [("cam1", Scenario.cam "global" None)] []
           "cam3" (Scenario.cam "rolling" (Some 7%Z))).
  - vm_compute. reflexivity.
  - reflexivity.
  - intros cam' r' Hin%list_elem_of_In. simpl in Hin.
    destruct Hin as [[= <- <-]|[]]. split.
    + exists {| sh_type := Some "global"; sh_speed := None |}, "global".
      split; [reflexivity|]. split; [reflexivity|]. discriminate.
    + intros (sh & [= <-] & [=]).
  - reflexivity.
Defined.

(** ** More on range queries *)

Section RangeMore.

Import Dataset.
Local Open Scope Z_scope.

(** Stepping a generator [fuel] times gives the first [fuel] records of what
    it has left. *)
Lemma iterate_take fuel g (h : list generator) gen i :
  h !! g = Some gen →
  gi_frame gen = Some i →
  (iterate fuel g h).1
  = take fuel (map (_find_data_for (gi_self gen))
                 (List.filter (within (gi_start gen) (gi_stop gen))
                    (drop i (_times (gi_self gen))))).
Proof.
  revert h gen i. induction fuel as [|fuel IH]; intros h gen i Hg Hi; [done|].
  simpl. unfold next. rewrite Hg. unfold resume. rewrite Hi.
  pose proof (loop_spec (gi_self gen) (gi_start gen) (gi_stop gen)
                (drop i (_times (gi_self gen))) i) as Hloop.
  destruct (_find_data_between_loop _ _ _ _ _) as [[data j]|].
  - destruct Hloop as (k & -> & Hk & Hdata & Hfilter).
    rewrite drop_drop in Hfilter.
    set (gen' := {| gi_self := gi_self gen; gi_start := gi_start gen;
                    gi_stop := gi_stop gen; gi_frame := Some (i + S k)%nat |}).
    assert (g < length h)%nat as Hlt by (by eapply lookup_lt_Some).
    specialize (IH (<[g := gen']> h) gen' (i + S k)%nat
                  (list_lookup_insert_eq _ _ _ Hlt) eq_refl).
    destruct (iterate fuel g (<[g := gen']> h)) as [l h'']. simpl in *.
    rewrite IH, Hfilter. simpl. by rewrite <- Hdata.
  - by rewrite Hloop.
Qed.

Lemma sublist_filter_impl {A} (f f' : A → bool) (l : list A) :
  (∀ x, f x = true → f' x = true) →
  sublist (List.filter f l) (List.filter f' l).
Proof.
  intros Himpl. induction l as [|x l IH]; simpl; [constructor|].
  destruct (f x) eqn:Hf.
  - rewrite (Himpl x Hf). by constructor.
  - destruct (f' x); [by constructor|done].
Qed.

Lemma sublist_map {A B} (f : A → B) (l1 l2 : list A) :
  sublist l1 l2 → sublist (map f l1) (map f l2).
Proof. induction 1; simpl; by constructor. Qed.

Lemma within_wider start' stop' start stop t :
  wider start' stop' start stop →
  within start stop t = true → within start' stop' t = true.
Proof.
  intros [Hstart Hstop]. rewrite !within_spec. intros [Ha Hb]. split.
  - intros x (y & Hy & Hxy)%Hstart. specialize (Ha y Hy). lia.
  - intros x (y & Hy & Hxy)%Hstop. specialize (Hb y Hy). lia.
Qed.

Lemma within_point t x : within (Some t) (Some t) x = true ↔ x = t.
Proof.
  rewrite within_spec. split.
  - intros [Ha Hb]. specialize (Ha t eq_refl). specialize (Hb t eq_refl). lia.
  - intros ->. split; intros ? [= <-]; lia.
Qed.

Lemma filter_point (l : list Z) (t : Z) :
  NoDup l →
  List.filter (within (Some t) (Some t)) l
  = if bool_decide (t ∈ l) then [t] else [].
Proof.
  induction 1 as [|x l Hx Hl IH]; cbn [List.filter]; [done|].
  destruct (within (Some t) (Some t) x) eqn:Hw.
  - apply within_point in Hw as ->. rewrite IH.
    rewrite (bool_decide_eq_false_2 (t ∈ l)) by done.
    by rewrite bool_decide_eq_true_2 by (apply elem_of_cons; by left).
  - rewrite IH. assert (x ≠ t) as Hne.
    { intros ->. by rewrite (proj2 (within_point t t) eq_refl) in Hw. }
    f_equal. clear IH. case_bool_decide as H1; case_bool_decide as H2; try done.
    + destruct H2. apply elem_of_cons. by right.
    + apply elem_of_cons in H2 as [->|?]; done.
Qed.

End RangeMore.

(** X13: a range query is read lazily: stepping the generator of
    [dataset[start:stop]] [n] times gives the first [n] records of the whole
    sequence, whatever [n] is. *)
Theorem range_query_prefix
    (d : Dataset.t) (start stop : option Z) (h : list Dataset.generator)
    (n : nat) :
  ∃ (g : nat) (h' : list Dataset.generator) (l : list _Data.t),
    Dataset.__getitem__ d (Dataset.Slice start stop None) h
      = (Ok (Dataset.Generator g), h') ∧
    records d start stop h = Ok l ∧
    (Dataset.iterate n g h').1 = take n l.
Proof.
  eexists _, _, _. split; [apply getitem_slice|].
  split; [apply records_spec|].
  rewrite (iterate_take n (length h) _
             {| Dataset.gi_self := d; Dataset.gi_start := start;
                Dataset.gi_stop := stop; Dataset.gi_frame := Some 0%nat |}
             0%nat).
  - done.
  - rewrite lookup_app_r by done. by rewrite Nat.sub_diag.
  - done.
Qed.

(** X14: a range query whose [stop] is before its [start] yields no record. *)
Theorem range_query_empty
    (d : Dataset.t) (start stop : Z) (h : list Dataset.generator) :
  (stop < start)%Z →
  records d (Some start) (Some stop) h = Ok [].
Proof.
  intros Hlt. rewrite records_spec. do 2 f_equal.
  induction (Dataset._times d) as [|t l IH]; cbn [List.filter]; [done|].
  destruct (within (Some start) (Some stop) t) eqn:Hw; [|done].
  apply within_spec in Hw as [Ha Hb].
  specialize (Ha start eq_refl). specialize (Hb stop eq_refl). lia.
Qed.

Lemma range_query_empty_witness :
  (5 < 15)%Z ∧ records Scenario.dataset (Some 15%Z) (Some 5%Z) [] = Ok [].
Proof.
  split; [lia|]. apply (range_query_empty Scenario.dataset 15 5 []). lia.
Defined.

(** X15: widening the bounds of a range query only adds records: the
    sequence of [dataset[start:stop]] is a subsequence of the one of
    [dataset[start':stop']] when [start'] is open or not after [start], and
    [stop'] is open or not before [stop]. *)
Theorem range_query_monotone
    (d : Dataset.t) (start' stop' start stop : option Z)
    (h : list Dataset.generator) :
  wider start' stop' start stop →
  ∃ l l' : list _Data.t,
    records d start stop h = Ok l ∧
    records d start' stop' h = Ok l' ∧
    sublist l l'.
Proof.
  intros Hwider. eexists _, _. split; [apply records_spec|].
  split; [apply records_spec|].
  apply sublist_map, sublist_filter_impl. intros t. by apply within_wider.
Qed.

Lemma range_query_monotone_witness :
  wider None (Some 15%Z) (Some 5%Z) (Some 10%Z) ∧
  ∃ l l' : list _Data.t,
    records Scenario.dataset (Some 5%Z) (Some 10%Z) [] = Ok l ∧
    records Scenario.dataset None (Some 15%Z) [] = Ok l' ∧
    sublist l l'.
Proof.
  assert (wider None (Some 15%Z) (Some 5%Z) (Some 10%Z)) as Hw.
  { split; [intros ? [=]|]. intros x [= <-]. exists 10%Z. split; [done|lia]. }
  split; [exact Hw|].
  apply (range_query_monotone Scenario.dataset None (Some 15%Z)
           (Some 5%Z) (Some 10%Z) []). exact Hw.
Defined.

(** X16: on a record that loads, the range query [dataset[t:t]] yields the
    one record of the point query [dataset[t]] when [t] is a time of the
    Timeline Index, and nothing otherwise. *)
Theorem range_query_point
    (fs : Disk) (path : string) (d : Dataset.t) (t : Z)
    (h : list Dataset.generator) :
  Dataset.__init__ fs path = Ok d →
  ∃ data : _Data.t,
    Dataset.__getitem__ d (Dataset.Stamp t) h = (Ok (Dataset.Data data), h) ∧
    records d (Some t) (Some t) h
    = Ok (if bool_decide (t ∈ Dataset.times d) then [data] else []).
Proof.
  intros Hinit. eexists. split; [reflexivity|].
  rewrite records_spec. f_equal. unfold Dataset.times.
  rewrite filter_point.
  - by case_bool_decide.
  - apply init_loaded in Hinit.
    destruct (loaded_times _ _ _ Hinit) as (tf & ti & tg & _ & _ & _ & ->).
    apply NoDup_sorted_union.
Qed.

Lemma range_query_point_witness :
  Dataset.__init__ Scenario.disk "rec" = Ok Scenario.dataset ∧
  ∃ data : _Data.t,
    Dataset.__getitem__ Scenario.dataset (Dataset.Stamp 10%Z) []
    = (Ok (Dataset.Data data), []) ∧
    records Scenario.dataset (Some 10%Z) (Some 10%Z) []
    = Ok (if bool_decide (10%Z ∈ Dataset.times Scenario.dataset)
          then [data] else []).
Proof.
  split; [vm_compute; reflexivity|].
  apply (range_query_point Scenario.disk "rec"). vm_compute. reflexivity.
Defined.

(** X17: the range query with both bounds open, [dataset[:]], yields one
    record for each time of the Timeline Index, in its order. *)
Theorem range_query_full (d : Dataset.t) (h : list Dataset.generator) :
  ∃ l : list _Data.t,
    records d None None h = Ok l ∧
    l = map (Dataset._find_data_for d) (Dataset.times d) ∧
    map _Data.stamp l = Dataset.times d ∧
    length l = length (Dataset.times d).
Proof.
  eexists. split; [apply records_spec|].
  assert (List.filter (within None None) (Dataset._times d) = Dataset._times d)
    as ->.
  { induction (Dataset._times d) as [|t l IH]; simpl; [done|]. by rewrite IH. }
  split; [done|]. split; [apply stamps_find_data_for|]. apply length_map.
Qed.

(** X18: a generator object is read once: after [list(g)] every further
    [next(g)] raises [StopIteration] and leaves the store as it is, so that
    reading [g] again, for any number of rounds, yields nothing. *)
Theorem generator_stays_exhausted
    (g : nat) (h : list Dataset.generator)
    (self : Dataset.t) (start stop : option Z) (n : nat) :
  h !! g = Some {| Dataset.gi_self := self; Dataset.gi_start := start;
                   Dataset.gi_stop := stop; Dataset.gi_frame := Some 0%nat |} →
  Dataset.next g (Dataset.list_ g h).2 = (None, (Dataset.list_ g h).2) ∧
  Dataset.iterate n g (Dataset.list_ g h).2 = ([], (Dataset.list_ g h).2).
Proof.
  intros Hg. rewrite (list_fresh _ _ _ _ _ Hg). simpl.
  match goal with |- context [<[g := ?gen]> h] =>
    assert (<[g := gen]> h !! g = Some gen) as Hfin
      by (apply list_lookup_insert_eq; by eapply lookup_lt_Some)
  end.
  pose proof (next_finished _ _ _ Hfin eq_refl) as Hnext.
  split; [done|]. destruct n as [|n]; [done|]. simpl. by rewrite Hnext.
Qed.

Lemma generator_stays_exhausted_witness :
  (Dataset._find_data_between Scenario.dataset (Some 5%Z) (Some 15%Z) []).2
    !! 0%nat
  = Some {| Dataset.gi_self := Scenario.dataset;
            Dataset.gi_start := Some 5%Z; Dataset.gi_stop := Some 15%Z;
            Dataset.gi_frame := Some 0%nat |} ∧
  Dataset.next 0
    (Dataset.list_ 0
       (Dataset._find_data_between Scenario.dataset
          (Some 5%Z) (Some 15%Z) []).2).2
  = (None,
     (Dataset.list_ 0
        (Dataset._find_data_between Scenario.dataset
           (Some 5%Z) (Some 15%Z) []).2).2) ∧
  Dataset.iterate 3 0
    (Dataset.list_ 0
       (Dataset._find_data_between Scenario.dataset
          (Some 5%Z) (Some 15%Z) []).2).2
  = ([],
     (Dataset.list_ 0
        (Dataset._find_data_between Scenario.dataset
           (Some 5%Z) (Some 15%Z) []).2).2).
Proof.
  split; [reflexivity|].
  apply (generator_stays_exhausted 0
           (Dataset._find_data_between Scenario.dataset
              (Some 5%Z) (Some 15%Z) []).2
           Scenario.dataset (Some 5%Z) (Some 15%Z) 3).
  reflexivity.
Defined.

(** X19: the Timeline Index of a record that loads has exactly as many times
    as the three record files have distinct time stamps together: at most
    as many as they have lines together, and at least as many as any one of
    them has distinct time stamps. *)
Theorem timeline_length_bounds (fs : Disk) (path : string) (d : Dataset.t) :
  Dataset.__init__ fs path = Ok d →
  length (Dataset.times d)
  = length (remove_dups (stamps (Raw.frames (Dataset.raw d))
                         ++ stamps (Raw.imu (Dataset.raw d))
                         ++ stamps (Raw.groundtruth (Dataset.raw d)))) ∧
  (length (Dataset.times d)
   ≤ length (rows_of (Raw.frames (Dataset.raw d)))
     + length (rows_of (Raw.imu (Dataset.raw d)))
     + length (rows_of (Raw.groundtruth (Dataset.raw d))))%nat ∧
  (∀ a, a ∈ [Raw.frames (Dataset.raw d); Raw.imu (Dataset.raw d);
             Raw.groundtruth (Dataset.raw d)] →
        (length (remove_dups (stamps a)) ≤ length (Dataset.times d))%nat).
Proof.
  intros Hinit. destruct (timeline_sorted _ _ _ Hinit) as [Hsorted Hmem].
  assert (NoDup (Dataset.times d)) as Hnd.
  { apply init_loaded in Hinit.
    destruct (loaded_times _ _ _ Hinit) as (tf & ti & tg & _ & _ & _ & Ht).
    unfold Dataset.times. rewrite Ht. apply NoDup_sorted_union. }
  split; [|split].
  - apply Permutation_length, NoDup_Permutation;
      [done | apply NoDup_remove_dups |].
    intros t. rewrite elem_of_remove_dups, !elem_of_app. apply Hmem.
  - transitivity (length (stamps (Raw.frames (Dataset.raw d))
                          ++ stamps (Raw.imu (Dataset.raw d))
                          ++ stamps (Raw.groundtruth (Dataset.raw d)))).
    + apply submseteq_length, NoDup_submseteq; [done|].
      intros t Ht%Hmem. rewrite !elem_of_app. tauto.
    + unfold stamps. rewrite !length_app, !length_map. lia.
  - intros a Ha. apply submseteq_length, NoDup_submseteq;
      [apply NoDup_remove_dups|].
    intros t Ht. rewrite elem_of_remove_dups in Ht. apply Hmem.
    rewrite !elem_of_cons in Ha. destruct Ha as [->| [->| [->|[]%elem_of_nil]]];
      tauto.
Qed.

Lemma timeline_length_bounds_witness :
  Dataset.__init__ Scenario.late_disk "rec" = Ok Scenario.late_dataset ∧
  length (Dataset.times Scenario.late_dataset)
  = length (remove_dups
              (stamps (Raw.frames (Dataset.raw Scenario.late_dataset))
               ++ stamps (Raw.imu (Dataset.raw Scenario.late_dataset))
               ++ stamps (Raw.groundtruth (Dataset.raw Scenario.late_dataset)))) ∧
  (length (Dataset.times Scenario.late_dataset)
   ≤ length (rows_of (Raw.frames (Dataset.raw Scenario.late_dataset)))
     + length (rows_of (Raw.imu (Dataset.raw Scenario.late_dataset)))
     + length (rows_of (Raw.groundtruth (Dataset.raw Scenario.late_dataset))))%nat ∧
  (∀ a, a ∈ [Raw.frames (Dataset.raw Scenario.late_dataset);
             Raw.imu (Dataset.raw Scenario.late_dataset);
             Raw.groundtruth (Dataset.raw Scenario.late_dataset)] →
        (length (remove_dups (stamps a))
         ≤ length (Dataset.times Scenario.late_dataset))%nat).
Proof.
  split; [vm_compute; reflexivity|].
  apply (timeline_length_bounds Scenario.late_disk "rec").
  vm_compute. reflexivity.
Defined.

(** In the record with its ground truth at 1.0 and 2.0, the seven lines of
    the three files share two time stamps: the Timeline Index has five
    times. *)
Example late_scenario_timeline :
  length (Dataset.times Scenario.late_dataset) = 5%nat ∧
  (length (rows_of (Raw.frames (Dataset.raw Scenario.late_dataset)))
   + length (rows_of (Raw.imu (Dataset.raw Scenario.late_dataset)))
   + length (rows_of (Raw.groundtruth (Dataset.raw Scenario.late_dataset)))
   = 7)%nat.
Proof. split; reflexivity. Qed.
